(** * strategy-go: position sizing, leverage and the fixed risk-reward strategy

    A shallow embedding of package calculator (CalculateSize,
    CalculateLeverage, CalculateRRTakeProfit, the validators, the PnL
    helpers), of the types of package strategy, of the risk-ratio strategy
    of package riskratio and of the example strategy with ceilings of its own,
    followed by the properties the specification states about them and by
    further properties read off the code.

    Numbers.  The Go code computes on [float64].  The specification states its
    formulas over the real numbers (its tests compare with a tolerance), so a
    [float64] is modelled by an exact rational [Q]: for the real-valued
    results rounding, NaN and the infinities are outside the model.  The one
    place where Go arithmetic leaves the finite numbers, a division by zero,
    is made explicit: [fdiv] is a
    checked division, and every function that divides returns an [option],
    [None] meaning that the Go result would be an infinity or a NaN (a
    division by the literal 100 is the plain [/]).

    Integers.  Go's [int] is modelled by [Z]; the code performs no integer
    arithmetic, only comparisons and the conversion [int(math.Ceil(x))] of
    [CalculateLeverage].  There the rounding decides which integer comes out,
    so the product and the quotient of [CalculateLeverage] are rounded to the
    nearest binary64 number ([round64], ties to even), and the conversion
    returns the integer itself only within the 64-bit range of [int]; what
    it gives otherwise Go leaves to the implementation, and the model takes
    the value of amd64 ([int_indefinite]).  The size a strategy hands to
    [CalculateLeverage] is the exact one of the model, which can differ from
    the float64 size in the last bit and so, at an integer boundary, in the
    leverage ([CalculateLeverage_follows_the_rounded_size]); the leverage of
    a plan is therefore always stated as the result of [CalculateLeverage]
    on the plan's own size, which holds of the exact and of the rounded size
    alike. *)

From Stdlib Require Import ZArith QArith Qabs Qround Lqa Lia.
From Stdlib Require Import Bool String List.
Import ListNotations.

Open Scope Q_scope.

(** ** float64 as exact rationals *)

Definition float64 := Q.
Definition int := Z.

(** Go's comparison operators on float64, as booleans. *)
Definition fle (x y : float64) : bool := Qle_bool x y.
Definition flt (x y : float64) : bool := negb (Qle_bool y x).
Definition fge (x y : float64) : bool := fle y x.
Definition fgt (x y : float64) : bool := flt y x.

(** Checked division: [None] on a zero divisor (Go yields an infinity or NaN). *)
Definition fdiv (x y : float64) : option float64 :=
  if Qeq_bool y 0 then None else Some (x / y).

(** A small option monad for the functions that divide. *)
Definition bind {A B : Type} (m : option A) (k : A -> option B) : option B :=
  match m with
  | Some a => k a
  | None => None
  end.

Notation "x <- m ;; k" := (bind m (fun x => k))
  (at level 61, m at next level, right associativity).

(** ** float64 rounding and the conversion to int *)

(** The integer nearest to [n/d] for [d > 0], ties to the even one. *)
Definition round_half_even (n d : Z) : Z :=
  let f := (n / d)%Z in
  match (2 * (n mod d) ?= d)%Z with
  | Lt => f
  | Gt => (f + 1)%Z
  | Eq => if Z.even f then f else (f + 1)%Z
  end.

(** The integer part of the binary logarithm of [a > 0]. *)
Definition ilog2 (a : Q) : Z :=
  let k := (Z.log2 (Qnum a) - Z.log2 (Zpos (Qden a)))%Z in
  if Qle_bool (2 ^ k) a then k else (k - 1)%Z.

(** The binary64 number nearest to [q]: 53 significant bits, the last place
    never below 2^-1074, ties to the even significand; [None] when the result
    is an infinity (from 2^1024 on). *)
Definition round64 (q : Q) : option float64 :=
  if Qeq_bool q 0 then Some 0
  else
    let a := Qabs q in
    let e := Z.max (ilog2 a - 52) (-1074) in
    let m :=
      if (0 <=? e)%Z
      then round_half_even (Qnum a) (Zpos (Qden a) * 2 ^ e)
      else round_half_even (Qnum a * 2 ^ (- e)) (Zpos (Qden a)) in
    let r := inject_Z m * 2 ^ e in
    if Qle_bool (2 ^ 1024) r then None
    else Some (if Qle_bool 0 q then r else - r).
Arguments round64 : simpl never.

(** The float64 product and quotient of two finite numbers; [None] is an
    infinity or a NaN. *)
Definition mul64 (x y : float64) : option float64 := round64 (x * y).

Definition div64 (x y : float64) : option float64 :=
  if Qeq_bool y 0 then None else round64 (x / y).

(** [math.Ceil]: an infinity or a NaN is returned as it is. *)
Definition Ceil (x : option float64) : option float64 :=
  match x with
  | Some q => Some (inject_Z (Qceiling q))
  | None => None
  end.

(** The 64-bit range of [int] and the conversion [int(x)] of a float64: the
    integer part of [x] when it lies in the range.  For every other [x],
    an infinity or a NaN included, Go leaves the result to the implementation;
    [int_indefinite] is what amd64 gives. *)
Definition min_int : Z := (- 2 ^ 63)%Z.
Definition max_int : Z := (2 ^ 63 - 1)%Z.
Definition int_indefinite : int := min_int.

Definition trunc (q : Q) : Z :=
  if Qle_bool 0 q then Qfloor q else Qceiling q.

Definition int_of_float64 (x : option float64) : int :=
  match x with
  | Some q =>
      if ((min_int <=? trunc q) && (trunc q <=? max_int))%Z then trunc q
      else int_indefinite
  | None => int_indefinite
  end.

(** ** Shared types (package strategy) *)

(** [type Side string] with its two constants. *)
Definition Side := string.
Definition SideLong : Side := "LONG"%string.
Definition SideShort : Side := "SHORT"%string.

(** The errors the code builds with [fmt.Errorf], one constructor per message,
    carrying the values the message prints; [ErrValidationFailed] is the
    ["validation failed: %w"] wrapper of the strategy. *)
Inductive error : Type :=
| ErrEntryPrice (entryPrice : float64)
| ErrStopLoss (stopLoss : float64)
| ErrRiskPercent (riskPercent : float64)
| ErrAccountEquity (accountEquity : float64)
| ErrLongStopLoss (stopLoss entry : float64)
| ErrShortStopLoss (stopLoss entry : float64)
| ErrLongEntry (entry current : float64)
| ErrShortEntry (entry current : float64)
| ErrValidationFailed (cause : error).

(** [type StopLossType string], [type TakeProfitType string],
    [type ActionType string], [type OrderType string]. *)
Definition StopLossType := string.
Definition StopLossTypeFixed : StopLossType := "FIXED"%string.
Definition StopLossTypeTrailing : StopLossType := "TRAILING"%string.

Definition TakeProfitType := string.
Definition TakeProfitTypeLimit : TakeProfitType := "LIMIT"%string.
Definition TakeProfitTypeTrailing : TakeProfitType := "TRAILING"%string.

Definition ActionType := string.
Definition ActionTypeNone : ActionType := "NONE"%string.
Definition ActionTypeAdjustSL : ActionType := "ADJUST_SL"%string.
Definition ActionTypeAdjustTP : ActionType := "ADJUST_TP"%string.
Definition ActionTypeClose : ActionType := "CLOSE"%string.
Definition ActionTypeAddPosition : ActionType := "ADD_POSITION"%string.

Definition OrderType := string.

(** [time.Time], as an instant counted from some epoch. *)
Definition Time := Z.

(** [context.Context]: passed along and never inspected. *)
Definition Context := unit.

(** [StrategyParams] is a [map\[string\]interface{}]; the risk-ratio strategy
    never reads it, so a list of bindings is enough. *)
Inductive ParamValue : Type :=
| ParamString (s : string)
| ParamInt (n : Z)
| ParamFloat (x : float64)
| ParamBool (b : bool).

Definition StrategyParams := list (string * ParamValue).

Module Position.
Record t : Type := mk {
  Symbol : string;
  Side : Side;
  Size : float64;
  EntryPrice : float64;
  MarkPrice : float64;
  UnrealizedPnL : float64;
  Leverage : int;
  LiquidationPrice : float64
}.
End Position.

Module OrderRequest.
Record t : Type := mk {
  Symbol : string;
  Side : Side;
  Type_ : OrderType;
  Size : float64;
  Price : float64;
  StopPrice : float64;
  ReduceOnly : bool
}.
End OrderRequest.

Module PositionParams.
Record t : Type := mk {
  Symbol : string;
  Side : Side;
  EntryPrice : float64;
  StopLoss : float64;
  AccountBalance : float64;
  RiskPercent : float64;
  MaxLeverage : int;
  Params : StrategyParams
}.
End PositionParams.

Module StopLossLevel.
Record t : Type := mk {
  Price : float64;
  Type_ : StopLossType;
  ActivationPrice : float64;
  CallbackRate : float64
}.
End StopLossLevel.

Module TakeProfitLevel.
Record t : Type := mk {
  Price : float64;
  Percentage : float64;
  Type_ : TakeProfitType;
  ActivationPrice : float64;
  CallbackRate : float64
}.
End TakeProfitLevel.

(** [StopLoss] is a pointer in the source ([None] is nil); the take-profit
    slice holds the levels themselves. *)
Module PositionPlan.
Record t : Type := mk {
  Symbol : string;
  Side : Side;
  Size : float64;
  EntryPrice : float64;
  Leverage : int;
  StopLoss : option StopLossLevel.t;
  TakeProfits : list TakeProfitLevel.t;
  RiskAmount : float64;
  RiskPercent : float64;
  NotionalValue : float64;
  StrategyName : string;
  Timestamp : Time
}.
End PositionPlan.

Module StrategyAction.
Record t : Type := mk {
  Type_ : ActionType;
  Reason : string;
  Orders : list OrderRequest.t
}.
End StrategyAction.

(** ** Package calculator *)

Module calculator.

(** Modelled from the spec: the calculator's [Side] type is declared in a
    package outside the sources at hand; the specification gives the enum
    \{Long, Short\}, and the strategy package's own declaration (a string type
    with the constants "LONG" and "SHORT") is used for it. *)
Definition Side := string.
Definition SideLong : Side := "LONG"%string.
Definition SideShort : Side := "SHORT"%string.

Record Calculator : Type := mkCalculator { maxLeverage : int }.

Definition New (maxLeverage : int) : Calculator :=
  {| maxLeverage := maxLeverage |}.
Arguments New maxLeverage%_Z.

Definition CalculateSize (c : Calculator)
    (balance riskPercent entry stopLoss : float64) (side : Side)
    : option float64 :=
  let riskAmount := balance * (riskPercent / 100) in
  let priceRisk :=
    if String.eqb side SideLong then entry - stopLoss else stopLoss - entry in
  fdiv riskAmount priceRisk.

Definition CalculateLeverage (c : Calculator)
    (size price balance : float64) (maxLeverage : int) : int :=
  let notional := mul64 size price in
  let requiredLeverage :=
    int_of_float64 (Ceil (n <- notional ;; div64 n balance)) in
  if (requiredLeverage >? maxLeverage)%Z then maxLeverage
  else if (requiredLeverage <? 1)%Z then 1%Z
  else requiredLeverage.
Arguments CalculateLeverage c size price balance maxLeverage%_Z : simpl never.

Definition CalculateRRTakeProfit (c : Calculator)
    (entry stopLoss rrRatio : float64) (side : Side) : float64 :=
  let slDistance := Qabs (entry - stopLoss) in
  if String.eqb side SideLong then entry + (slDistance * rrRatio)
  else entry - (slDistance * rrRatio).

Definition ValidatePriceLogic (c : Calculator)
    (side : Side) (entry current : float64) : option error :=
  if String.eqb side SideLong && fge entry current
  then Some (ErrLongEntry entry current)
  else if String.eqb side SideShort && fle entry current
  then Some (ErrShortEntry entry current)
  else None.

Definition ValidateStopLoss (c : Calculator)
    (side : Side) (entry stopLoss : float64) : option error :=
  if String.eqb side SideLong && fge stopLoss entry
  then Some (ErrLongStopLoss stopLoss entry)
  else if String.eqb side SideShort && fle stopLoss entry
  then Some (ErrShortStopLoss stopLoss entry)
  else None.

Definition CalculatePnLPercent (c : Calculator)
    (side : Side) (entryPrice markPrice : float64) : option float64 :=
  if fle entryPrice 0 then Some 0
  else if String.eqb side SideLong then
    q <- fdiv (markPrice - entryPrice) entryPrice ;; Some (q * 100)
  else
    q <- fdiv (entryPrice - markPrice) entryPrice ;; Some (q * 100).

Definition CalculateDistanceToPrice (c : Calculator)
    (side : Side) (currentPrice targetPrice : float64) : option float64 :=
  if fle currentPrice 0 then Some 0
  else if String.eqb side SideLong then
    q <- fdiv (targetPrice - currentPrice) currentPrice ;; Some (q * 100)
  else
    q <- fdiv (currentPrice - targetPrice) currentPrice ;; Some (q * 100).

Definition CalculateExpectedPnL (c : Calculator)
    (side : Side) (entryPrice exitPrice size : float64)
    : option (float64 * float64) :=
  let nominal :=
    if String.eqb side SideLong then (exitPrice - entryPrice) * size
    else (entryPrice - exitPrice) * size in
  percent <- CalculatePnLPercent c side entryPrice exitPrice ;;
  Some (nominal, percent).

Definition ValidateInputs (c : Calculator)
    (side : Side) (entryPrice stopLoss riskPercent accountEquity : float64)
    : option error :=
  if fle entryPrice 0 then Some (ErrEntryPrice entryPrice)
  else if fle stopLoss 0 then Some (ErrStopLoss stopLoss)
  else if fle riskPercent 0 || fgt riskPercent 100
  then Some (ErrRiskPercent riskPercent)
  else if fle accountEquity 0 then Some (ErrAccountEquity accountEquity)
  else match ValidateStopLoss c side entryPrice stopLoss with
       | Some err => Some err
       | None => None
       end.

End calculator.


(** ** Package riskratio: the fixed risk-reward strategy *)

Module riskratio.

Record RiskRatioStrategy : Type := mkRiskRatioStrategy {
  calculator : calculator.Calculator;
  rrRatio : float64
}.

Definition New (rrRatio : float64) : RiskRatioStrategy :=
  {| calculator := calculator.New 125; rrRatio := rrRatio |}.

Definition Name (s : RiskRatioStrategy) : string := "risk-ratio"%string.

Definition ValidateParams (s : RiskRatioStrategy) (params : StrategyParams)
    : option error := None.

Definition calculatorSideFromStrategy (side : Side) : calculator.Side :=
  if String.eqb side SideLong then calculator.SideLong
  else calculator.SideShort.

(** [CalculatePosition] returns the Go pair (plan, error), each nil-able; [now]
    is the reading of [time.Now()].  The outer [option] is the one of the
    checked division. *)
Definition CalculatePosition (s : RiskRatioStrategy) (ctx : Context)
    (now : Time) (params : PositionParams.t)
    : option (option PositionPlan.t * option error) :=
  let calcSide := calculatorSideFromStrategy params.(PositionParams.Side) in
  match calculator.ValidateInputs s.(calculator) calcSide
          params.(PositionParams.EntryPrice) params.(PositionParams.StopLoss)
          params.(PositionParams.RiskPercent)
          params.(PositionParams.AccountBalance) with
  | Some err => Some (None, Some (ErrValidationFailed err))
  | None =>
    size <- calculator.CalculateSize s.(calculator)
              params.(PositionParams.AccountBalance)
              params.(PositionParams.RiskPercent)
              params.(PositionParams.EntryPrice)
              params.(PositionParams.StopLoss)
              calcSide ;;
    let leverage := calculator.CalculateLeverage s.(calculator)
              size
              params.(PositionParams.EntryPrice)
              params.(PositionParams.AccountBalance)
              params.(PositionParams.MaxLeverage) in
    let tpPrice := calculator.CalculateRRTakeProfit s.(calculator)
              params.(PositionParams.EntryPrice)
              params.(PositionParams.StopLoss)
              s.(rrRatio)
              calcSide in
    Some (Some {|
      PositionPlan.Symbol := params.(PositionParams.Symbol);
      PositionPlan.Side := params.(PositionParams.Side);
      PositionPlan.Size := size;
      PositionPlan.EntryPrice := params.(PositionParams.EntryPrice);
      PositionPlan.Leverage := leverage;
      PositionPlan.StopLoss := Some {|
        StopLossLevel.Price := params.(PositionParams.StopLoss);
        StopLossLevel.Type_ := StopLossTypeFixed;
        StopLossLevel.ActivationPrice := 0;
        StopLossLevel.CallbackRate := 0 |};
      PositionPlan.TakeProfits := [ {|
        TakeProfitLevel.Price := tpPrice;
        TakeProfitLevel.Percentage := 100;
        TakeProfitLevel.Type_ := TakeProfitTypeLimit;
        TakeProfitLevel.ActivationPrice := 0;
        TakeProfitLevel.CallbackRate := 0 |} ];
      PositionPlan.RiskAmount :=
        params.(PositionParams.AccountBalance)
        * params.(PositionParams.RiskPercent) / 100;
      PositionPlan.RiskPercent := params.(PositionParams.RiskPercent);
      PositionPlan.NotionalValue := size * params.(PositionParams.EntryPrice);
      PositionPlan.StrategyName := Name s;
      PositionPlan.Timestamp := now |}, None)
  end.

Definition OnPositionOpened (s : RiskRatioStrategy) (ctx : Context)
    (position : option Position.t) : option error := None.

Definition OnPriceUpdate (s : RiskRatioStrategy) (ctx : Context)
    (position : option Position.t) (currentPrice : float64)
    : option StrategyAction.t * option error :=
  (Some {| StrategyAction.Type_ := ActionTypeNone;
           StrategyAction.Reason := ""%string;
           StrategyAction.Orders := [] |}, None).

Definition ShouldClose (s : RiskRatioStrategy) (ctx : Context)
    (position : option Position.t) (currentPrice : float64)
    : bool * string := (false, ""%string).

End riskratio.

(** ** Quantities named by the specification *)

(** The clamp of [x] to the interval from [lo] to [hi]. *)
Definition clamp (x lo hi : Z) : Z := Z.max lo (Z.min x hi).

(** The quotient [notional / balance] as [CalculateLeverage] computes it in
    float64, and its local [requiredLeverage]. *)
Definition float_quotient (size price balance : float64) : option float64 :=
  n <- mul64 size price ;; div64 n balance.

Definition required_leverage (size price balance : float64) : int :=
  int_of_float64 (Ceil (float_quotient size price balance)).

(** The side/stop-loss relationship is violated. *)
Definition stop_loss_violated (side : calculator.Side)
    (entry stopLoss : float64) : Prop :=
  (side = calculator.SideLong /\ entry <= stopLoss)
  \/ (side = calculator.SideShort /\ stopLoss <= entry).

(** The inputs the specification says [ValidateInputs] rejects. *)
Definition invalid_inputs (side : calculator.Side)
    (entryPrice stopLoss riskPercent accountBalance : float64) : Prop :=
  entryPrice <= 0 \/ stopLoss <= 0 \/ riskPercent <= 0 \/ 100 < riskPercent
  \/ accountBalance <= 0 \/ stop_loss_violated side entryPrice stopLoss.

(** The price risk [CalculateSize] divides by. *)
Definition priceRisk (side : calculator.Side) (entry stopLoss : float64)
    : float64 :=
  if String.eqb side calculator.SideLong then entry - stopLoss
  else stopLoss - entry.

(** [ValidateInputs] as [CalculatePosition] calls it. *)
Definition validate (s : riskratio.RiskRatioStrategy)
    (params : PositionParams.t) : option error :=
  calculator.ValidateInputs s.(riskratio.calculator)
    (riskratio.calculatorSideFromStrategy params.(PositionParams.Side))
    params.(PositionParams.EntryPrice) params.(PositionParams.StopLoss)
    params.(PositionParams.RiskPercent) params.(PositionParams.AccountBalance).

(** The size [CalculatePosition] computes on validated parameters. *)
Definition plan_size (params : PositionParams.t) : float64 :=
  params.(PositionParams.AccountBalance)
  * (params.(PositionParams.RiskPercent) / 100)
  / priceRisk
      (riskratio.calculatorSideFromStrategy params.(PositionParams.Side))
      params.(PositionParams.EntryPrice) params.(PositionParams.StopLoss).

(** The plan [CalculatePosition] assembles from them. *)
Definition valid_plan (s : riskratio.RiskRatioStrategy) (now : Time)
    (params : PositionParams.t) : PositionPlan.t := {|
  PositionPlan.Symbol := params.(PositionParams.Symbol);
  PositionPlan.Side := params.(PositionParams.Side);
  PositionPlan.Size := plan_size params;
  PositionPlan.EntryPrice := params.(PositionParams.EntryPrice);
  PositionPlan.Leverage :=
    calculator.CalculateLeverage s.(riskratio.calculator) (plan_size params)
      params.(PositionParams.EntryPrice)
      params.(PositionParams.AccountBalance)
      params.(PositionParams.MaxLeverage);
  PositionPlan.StopLoss := Some {|
    StopLossLevel.Price := params.(PositionParams.StopLoss);
    StopLossLevel.Type_ := StopLossTypeFixed;
    StopLossLevel.ActivationPrice := 0;
    StopLossLevel.CallbackRate := 0 |};
  PositionPlan.TakeProfits := [ {|
    TakeProfitLevel.Price :=
      calculator.CalculateRRTakeProfit s.(riskratio.calculator)
        params.(PositionParams.EntryPrice) params.(PositionParams.StopLoss)
        s.(riskratio.rrRatio)
        (riskratio.calculatorSideFromStrategy params.(PositionParams.Side));
    TakeProfitLevel.Percentage := 100;
    TakeProfitLevel.Type_ := TakeProfitTypeLimit;
    TakeProfitLevel.ActivationPrice := 0;
    TakeProfitLevel.CallbackRate := 0 |} ];
  PositionPlan.RiskAmount :=
    params.(PositionParams.AccountBalance)
    * params.(PositionParams.RiskPercent) / 100;
  PositionPlan.RiskPercent := params.(PositionParams.RiskPercent);
  PositionPlan.NotionalValue :=
    plan_size params * params.(PositionParams.EntryPrice);
  PositionPlan.StrategyName := "risk-ratio"%string;
  PositionPlan.Timestamp := now |}.

(** Two plans that agree on every field but [Timestamp]. *)
Definition eq_except_Timestamp (p1 p2 : PositionPlan.t) : Prop :=
  p1.(PositionPlan.Symbol) = p2.(PositionPlan.Symbol)
  /\ p1.(PositionPlan.Side) = p2.(PositionPlan.Side)
  /\ p1.(PositionPlan.Size) = p2.(PositionPlan.Size)
  /\ p1.(PositionPlan.EntryPrice) = p2.(PositionPlan.EntryPrice)
  /\ p1.(PositionPlan.Leverage) = p2.(PositionPlan.Leverage)
  /\ p1.(PositionPlan.StopLoss) = p2.(PositionPlan.StopLoss)
  /\ p1.(PositionPlan.TakeProfits) = p2.(PositionPlan.TakeProfits)
  /\ p1.(PositionPlan.RiskAmount) = p2.(PositionPlan.RiskAmount)
  /\ p1.(PositionPlan.RiskPercent) = p2.(PositionPlan.RiskPercent)
  /\ p1.(PositionPlan.NotionalValue) = p2.(PositionPlan.NotionalValue)
  /\ p1.(PositionPlan.StrategyName) = p2.(PositionPlan.StrategyName).

(** ** Concrete requests *)

Definition request (symbol : string) (side : Side)
    (entryPrice stopLoss accountBalance riskPercent : float64)
    (maxLeverage : int) : PositionParams.t := {|
  PositionParams.Symbol := symbol;
  PositionParams.Side := side;
  PositionParams.EntryPrice := entryPrice;
  PositionParams.StopLoss := stopLoss;
  PositionParams.AccountBalance := accountBalance;
  PositionParams.RiskPercent := riskPercent;
  PositionParams.MaxLeverage := maxLeverage;
  PositionParams.Params := [] |}.
Arguments request symbol%_string side entryPrice stopLoss accountBalance
  riskPercent maxLeverage%_Z.

(** The rows of the strategy's test table. *)
Definition long_2pct := request "BTC-USDT" SideLong 45000 44500 1000 2 125.
Definition short_2pct := request "ETH-USDT" SideShort 3000 3100 1000 2 125.
Definition long_1pct := request "BTC-USDT" SideLong 50000 49500 2000 1 125.
Definition long_tight_stop :=
  request "BTC-USDT" SideLong 45000 44900 1000 2 125.
Definition long_stop_above := request "BTC-USDT" SideLong 45000 46000 1000 2 125.
Definition short_stop_below := request "ETH-USDT" SideShort 3000 2900 1000 2 125.
Definition negative_entry :=
  request "BTC-USDT" SideLong (-45000) 44500 1000 2 125.
Definition risk_too_high := request "BTC-USDT" SideLong 45000 44500 1000 150 125.
Definition zero_balance := request "BTC-USDT" SideLong 45000 44500 0 2 125.
Definition entry_equals_stop :=
  request "BTC-USDT" SideLong 45000 45000 1000 2 125.

(** What the table checks of a plan: size, leverage, take-profit price. *)
Definition plan_is (r : option (option PositionPlan.t * option error))
    (size : float64) (leverage : int) (tpPrice : float64) : Prop :=
  exists plan tp,
    r = Some (Some plan, None)
    /\ plan.(PositionPlan.Size) == size
    /\ plan.(PositionPlan.Leverage) = leverage
    /\ plan.(PositionPlan.TakeProfits) = [tp]
    /\ tp.(TakeProfitLevel.Price) == tpPrice.

Definition is_error (r : option (option PositionPlan.t * option error))
    : Prop :=
  exists err, r = Some (None, Some err).

(** A valid request whose required leverage (900) is above both the 125 of
    the strategy's calculator and the 200 the caller allows. *)
Definition high_leverage_params :=
  request "BTC-USDT" SideLong 45000 44999 1000 2 200.

(** A valid request that allows no leverage at all. *)
Definition zero_leverage_params :=
  request "BTC-USDT" SideLong 45000 44500 1000 2 0.

(** ** The example strategy with ceilings of its own (package main) *)

Module conservative.

Record ConservativeStrategy : Type := mkConservativeStrategy {
  calculator : calculator.Calculator;
  rrRatio : float64;
  maxRisk : float64
}.

Definition NewConservative : ConservativeStrategy :=
  {| calculator := calculator.New 10; rrRatio := 1.5; maxRisk := 1.0 |}.

Definition Name (s : ConservativeStrategy) : string := "conservative"%string.

Definition ValidateParams (s : ConservativeStrategy)
    (params : StrategyParams) : option error := None.

(** The line [CalculatePosition] prints when it lowers the risk, with the two
    values the line shows. *)
Inductive output : Type :=
| RiskCapped (maxRisk requested : float64).

(** The zero value of [time.Time], which the plan keeps: the literal sets no
    [Timestamp]. *)
Definition zeroTime : Time := 0%Z.

(** [CalculatePosition] returns what it printed and the Go pair (plan,
    error); the side goes to the calculator as it is, and the leverage
    ceiling is the literal 10. *)
Definition CalculatePosition (s : ConservativeStrategy) (ctx : Context)
    (params : PositionParams.t)
    : list output * option (option PositionPlan.t * option error) :=
  let '(riskPercent, printed) :=
    if fgt params.(PositionParams.RiskPercent) s.(maxRisk)
    then (s.(maxRisk),
          [RiskCapped s.(maxRisk) params.(PositionParams.RiskPercent)])
    else (params.(PositionParams.RiskPercent), []) in
  (printed,
   match calculator.ValidateInputs s.(calculator)
           params.(PositionParams.Side)
           params.(PositionParams.EntryPrice) params.(PositionParams.StopLoss)
           riskPercent params.(PositionParams.AccountBalance) with
   | Some err => Some (None, Some (ErrValidationFailed err))
   | None =>
     size <- calculator.CalculateSize s.(calculator)
               params.(PositionParams.AccountBalance)
               riskPercent
               params.(PositionParams.EntryPrice)
               params.(PositionParams.StopLoss)
               params.(PositionParams.Side) ;;
     let leverage := calculator.CalculateLeverage s.(calculator) size
               params.(PositionParams.EntryPrice)
               params.(PositionParams.AccountBalance) 10 in
     let tpPrice := calculator.CalculateRRTakeProfit s.(calculator)
               params.(PositionParams.EntryPrice)
               params.(PositionParams.StopLoss) s.(rrRatio)
               params.(PositionParams.Side) in
     Some (Some {|
       PositionPlan.Symbol := params.(PositionParams.Symbol);
       PositionPlan.Side := params.(PositionParams.Side);
       PositionPlan.Size := size;
       PositionPlan.EntryPrice := params.(PositionParams.EntryPrice);
       PositionPlan.Leverage := leverage;
       PositionPlan.StopLoss := Some {|
         StopLossLevel.Price := params.(PositionParams.StopLoss);
         StopLossLevel.Type_ := StopLossTypeFixed;
         StopLossLevel.ActivationPrice := 0;
         StopLossLevel.CallbackRate := 0 |};
       PositionPlan.TakeProfits := [ {|
         TakeProfitLevel.Price := tpPrice;
         TakeProfitLevel.Percentage := 100;
         TakeProfitLevel.Type_ := TakeProfitTypeLimit;
         TakeProfitLevel.ActivationPrice := 0;
         TakeProfitLevel.CallbackRate := 0 |} ];
       PositionPlan.RiskAmount :=
         params.(PositionParams.AccountBalance) * riskPercent / 100;
       PositionPlan.RiskPercent := riskPercent;
       PositionPlan.NotionalValue :=
         size * params.(PositionParams.EntryPrice);
       PositionPlan.StrategyName := Name s;
       PositionPlan.Timestamp := zeroTime |}, None)
   end).

Definition OnPositionOpened (s : ConservativeStrategy) (ctx : Context)
    (position : option Position.t) : option error := None.

Definition OnPriceUpdate (s : ConservativeStrategy) (ctx : Context)
    (position : option Position.t) (currentPrice : float64)
    : option StrategyAction.t * option error :=
  (Some {| StrategyAction.Type_ := ActionTypeNone;
           StrategyAction.Reason := ""%string;
           StrategyAction.Orders := [] |}, None).

Definition ShouldClose (s : ConservativeStrategy) (ctx : Context)
    (position : option Position.t) (currentPrice : float64)
    : bool * string := (false, ""%string).

End conservative.

(** ** Further quantities used below *)

(** The four numeric checks of [ValidateInputs], passed. *)
Definition numbers_valid
    (entryPrice stopLoss riskPercent accountBalance : float64) : Prop :=
  0 < entryPrice /\ 0 < stopLoss /\ 0 < riskPercent /\ riskPercent <= 100
  /\ 0 < accountBalance.

(** The move of the price from [entry] to [price] in the direction that
    pays for [side]: up for LONG, down for every other side. *)
Definition gain (side : calculator.Side) (entry price : float64) : float64 :=
  if String.eqb side calculator.SideLong then price - entry
  else entry - price.

(** A request and a plan with another side, the other fields kept. *)
Definition with_Side (side : Side) (p : PositionParams.t)
    : PositionParams.t := {|
  PositionParams.Symbol := p.(PositionParams.Symbol);
  PositionParams.Side := side;
  PositionParams.EntryPrice := p.(PositionParams.EntryPrice);
  PositionParams.StopLoss := p.(PositionParams.StopLoss);
  PositionParams.AccountBalance := p.(PositionParams.AccountBalance);
  PositionParams.RiskPercent := p.(PositionParams.RiskPercent);
  PositionParams.MaxLeverage := p.(PositionParams.MaxLeverage);
  PositionParams.Params := p.(PositionParams.Params) |}.

Definition plan_with_Side (side : Side) (p : PositionPlan.t)
    : PositionPlan.t := {|
  PositionPlan.Symbol := p.(PositionPlan.Symbol);
  PositionPlan.Side := side;
  PositionPlan.Size := p.(PositionPlan.Size);
  PositionPlan.EntryPrice := p.(PositionPlan.EntryPrice);
  PositionPlan.Leverage := p.(PositionPlan.Leverage);
  PositionPlan.StopLoss := p.(PositionPlan.StopLoss);
  PositionPlan.TakeProfits := p.(PositionPlan.TakeProfits);
  PositionPlan.RiskAmount := p.(PositionPlan.RiskAmount);
  PositionPlan.RiskPercent := p.(PositionPlan.RiskPercent);
  PositionPlan.NotionalValue := p.(PositionPlan.NotionalValue);
  PositionPlan.StrategyName := p.(PositionPlan.StrategyName);
  PositionPlan.Timestamp := p.(PositionPlan.Timestamp) |}.

(** A request and a plan with another risk percent or leverage ceiling. *)
Definition with_RiskPercent (riskPercent : float64) (p : PositionParams.t)
    : PositionParams.t := {|
  PositionParams.Symbol := p.(PositionParams.Symbol);
  PositionParams.Side := p.(PositionParams.Side);
  PositionParams.EntryPrice := p.(PositionParams.EntryPrice);
  PositionParams.StopLoss := p.(PositionParams.StopLoss);
  PositionParams.AccountBalance := p.(PositionParams.AccountBalance);
  PositionParams.RiskPercent := riskPercent;
  PositionParams.MaxLeverage := p.(PositionParams.MaxLeverage);
  PositionParams.Params := p.(PositionParams.Params) |}.

Definition with_MaxLeverage (maxLeverage : int) (p : PositionParams.t)
    : PositionParams.t := {|
  PositionParams.Symbol := p.(PositionParams.Symbol);
  PositionParams.Side := p.(PositionParams.Side);
  PositionParams.EntryPrice := p.(PositionParams.EntryPrice);
  PositionParams.StopLoss := p.(PositionParams.StopLoss);
  PositionParams.AccountBalance := p.(PositionParams.AccountBalance);
  PositionParams.RiskPercent := p.(PositionParams.RiskPercent);
  PositionParams.MaxLeverage := maxLeverage;
  PositionParams.Params := p.(PositionParams.Params) |}.

(** The risk percent the example strategy works with: the requested one,
    lowered to the strategy's [maxRisk]. *)
Definition capped_risk (s : conservative.ConservativeStrategy)
    (params : PositionParams.t) : float64 :=
  if fgt params.(PositionParams.RiskPercent) s.(conservative.maxRisk)
  then s.(conservative.maxRisk)
  else params.(PositionParams.RiskPercent).

(** The plan the example strategy assembles from a size and a leverage. *)
Definition conservative_plan (s : conservative.ConservativeStrategy)
    (params : PositionParams.t) (size : float64) (leverage : int)
    : PositionPlan.t := {|
  PositionPlan.Symbol := params.(PositionParams.Symbol);
  PositionPlan.Side := params.(PositionParams.Side);
  PositionPlan.Size := size;
  PositionPlan.EntryPrice := params.(PositionParams.EntryPrice);
  PositionPlan.Leverage := leverage;
  PositionPlan.StopLoss := Some {|
    StopLossLevel.Price := params.(PositionParams.StopLoss);
    StopLossLevel.Type_ := StopLossTypeFixed;
    StopLossLevel.ActivationPrice := 0;
    StopLossLevel.CallbackRate := 0 |};
  PositionPlan.TakeProfits := [ {|
    TakeProfitLevel.Price :=
      calculator.CalculateRRTakeProfit s.(conservative.calculator)
        params.(PositionParams.EntryPrice) params.(PositionParams.StopLoss)
        s.(conservative.rrRatio) params.(PositionParams.Side);
    TakeProfitLevel.Percentage := 100;
    TakeProfitLevel.Type_ := TakeProfitTypeLimit;
    TakeProfitLevel.ActivationPrice := 0;
    TakeProfitLevel.CallbackRate := 0 |} ];
  PositionPlan.RiskAmount :=
    params.(PositionParams.AccountBalance) * capped_risk s params / 100;
  PositionPlan.RiskPercent := capped_risk s params;
  PositionPlan.NotionalValue := size * params.(PositionParams.EntryPrice);
  PositionPlan.StrategyName := "conservative"%string;
  PositionPlan.Timestamp := conservative.zeroTime |}.

(** A plan under another strategy name and timestamp. *)
Definition plan_signed (name : string) (time : Time) (p : PositionPlan.t)
    : PositionPlan.t := {|
  PositionPlan.Symbol := p.(PositionPlan.Symbol);
  PositionPlan.Side := p.(PositionPlan.Side);
  PositionPlan.Size := p.(PositionPlan.Size);
  PositionPlan.EntryPrice := p.(PositionPlan.EntryPrice);
  PositionPlan.Leverage := p.(PositionPlan.Leverage);
  PositionPlan.StopLoss := p.(PositionPlan.StopLoss);
  PositionPlan.TakeProfits := p.(PositionPlan.TakeProfits);
  PositionPlan.RiskAmount := p.(PositionPlan.RiskAmount);
  PositionPlan.RiskPercent := p.(PositionPlan.RiskPercent);
  PositionPlan.NotionalValue := p.(PositionPlan.NotionalValue);
  PositionPlan.StrategyName := name;
  PositionPlan.Timestamp := time |}.

(** The risk-ratio strategy with the calculator and ratio of the example
    strategy. *)
Definition as_risk_ratio (s : conservative.ConservativeStrategy)
    : riskratio.RiskRatioStrategy :=
  {| riskratio.calculator := s.(conservative.calculator);
     riskratio.rrRatio := s.(conservative.rrRatio) |}.

(** Requests with no side set (the zero value of the string type), one of
    them with the stop loss at the entry price. *)
Definition no_side := request "BTC-USDT" ""%string 45000 45500 1000 2 125.
Definition no_side_flat := request "BTC-USDT" ""%string 45000 45000 1000 2 125.

(** A request for 150 percent of risk and one that allows a leverage of 3. *)
Definition risk_150 := request "BTC-USDT" SideLong 45000 44500 1000 150 125.
Definition tight_leverage_3 :=
  request "BTC-USDT" SideLong 45000 44990 1000 1 3.

(** ** Facts about the rational model of float64 *)

Section Float64Facts.

Lemma fle_true (x y : float64) : fle x y = true <-> x <= y.
Proof. unfold fle. apply Qle_bool_iff. Qed.

Lemma fle_false (x y : float64) : fle x y = false <-> y < x.
Proof.
  rewrite <- not_true_iff_false, fle_true. split.
  - apply Qnot_le_lt.
  - apply Qlt_not_le.
Qed.

Lemma fgt_true (x y : float64) : fgt x y = true <-> y < x.
Proof.
  unfold fgt, flt. rewrite negb_true_iff. apply fle_false.
Qed.

Lemma fgt_false (x y : float64) : fgt x y = false <-> x <= y.
Proof.
  unfold fgt, flt. rewrite negb_false_iff. apply fle_true.
Qed.

Lemma fge_true (x y : float64) : fge x y = true <-> y <= x.
Proof. unfold fge. apply fle_true. Qed.

Lemma fdiv_Some (x y : float64) : ~ y == 0 -> fdiv x y = Some (x / y).
Proof.
  intros Hy. unfold fdiv.
  destruct (Qeq_bool y 0) eqn:E; [|reflexivity].
  apply Qeq_bool_iff in E. contradiction.
Qed.

Lemma Qpos_nonzero (x : Q) : 0 < x -> ~ x == 0.
Proof. intros Hx E. rewrite E in Hx. discriminate Hx. Qed.

Lemma Qdiv_pos (x y : Q) : 0 < x -> 0 < y -> 0 < x / y.
Proof.
  intros Hx Hy. unfold Qdiv.
  apply Qmult_lt_0_compat; [assumption|].
  apply Qinv_lt_0_compat. assumption.
Qed.

Lemma trunc_inject_Z (z : Z) : trunc (inject_Z z) = z.
Proof.
  unfold trunc. destruct (Qle_bool 0 (inject_Z z)).
  - apply Qfloor_Z.
  - apply Qceiling_Z.
Qed.

(** Within the range of [int], the conversion of a ceiling is the ceiling. *)
Lemma int_of_float64_Ceil (q : float64) :
  (min_int <= Qceiling q <= max_int)%Z ->
  int_of_float64 (Ceil (Some q)) = Qceiling q.
Proof.
  intros [Hlo Hhi]. unfold Ceil, int_of_float64.
  rewrite trunc_inject_Z.
  apply Z.leb_le in Hlo, Hhi. rewrite Hlo, Hhi. reflexivity.
Qed.

End Float64Facts.

(** ** The validators *)

Section Validation.

Variable c : calculator.Calculator.

Lemma ValidateStopLoss_Some side entry stopLoss :
  (exists err, calculator.ValidateStopLoss c side entry stopLoss = Some err)
  <-> stop_loss_violated side entry stopLoss.
Proof.
  unfold calculator.ValidateStopLoss, stop_loss_violated.
  destruct (String.eqb_spec side calculator.SideLong) as [HL|HL];
  destruct (String.eqb_spec side calculator.SideShort) as [HS|HS];
  destruct (fge stopLoss entry) eqn:E1; destruct (fle stopLoss entry) eqn:E2;
  simpl;
  try apply fge_true in E1; try apply fle_true in E2;
  try apply fle_false in E1; try apply fle_false in E2;
  (split;
   [ intros [err H]; first [discriminate H | tauto | congruence]
   | intros [[H1 H2]|[H1 H2]];
     first [ eexists; reflexivity | congruence
           | exfalso; apply (Qlt_not_le _ _ E1), H2
           | exfalso; apply (Qlt_not_le _ _ E2), H2 ] ]).
Qed.

Lemma ValidateInputs_Some side entryPrice stopLoss riskPercent accountBalance :
  (exists err, calculator.ValidateInputs c side entryPrice stopLoss
                 riskPercent accountBalance = Some err)
  <-> invalid_inputs side entryPrice stopLoss riskPercent accountBalance.
Proof.
  unfold calculator.ValidateInputs, invalid_inputs.
  destruct (fle entryPrice 0) eqn:E1.
  { apply fle_true in E1. split; [tauto | eexists; reflexivity]. }
  destruct (fle stopLoss 0) eqn:E2.
  { apply fle_true in E2. split; [tauto | eexists; reflexivity]. }
  destruct (fle riskPercent 0) eqn:E3.
  { apply fle_true in E3. split; [tauto | eexists; reflexivity]. }
  destruct (fgt riskPercent 100) eqn:E4.
  { apply fgt_true in E4. split; [tauto | eexists; reflexivity]. }
  destruct (fle accountBalance 0) eqn:E5.
  { apply fle_true in E5. split; [tauto | eexists; reflexivity]. }
  simpl.
  apply fle_false in E1, E2, E3, E5. apply fgt_false in E4.
  pose proof (ValidateStopLoss_Some side entryPrice stopLoss) as HS.
  destruct (calculator.ValidateStopLoss c side entryPrice stopLoss) as [err|].
  - split; [intros _; do 5 right; apply HS; eauto | eauto].
  - split; [intros [err H]; discriminate|].
    intros [H|[H|[H|[H|[H|H]]]]].
    + exfalso. apply (Qlt_not_le _ _ E1 H).
    + exfalso. apply (Qlt_not_le _ _ E2 H).
    + exfalso. apply (Qlt_not_le _ _ E3 H).
    + exfalso. apply (Qlt_not_le _ _ H E4).
    + exfalso. apply (Qlt_not_le _ _ E5 H).
    + apply HS in H. destruct H as [err H]. discriminate.
Qed.

Lemma ValidateInputs_None side entryPrice stopLoss riskPercent accountBalance :
  calculator.ValidateInputs c side entryPrice stopLoss riskPercent
    accountBalance = None
  <-> ~ invalid_inputs side entryPrice stopLoss riskPercent accountBalance.
Proof.
  rewrite <- ValidateInputs_Some.
  destruct (calculator.ValidateInputs c side entryPrice stopLoss riskPercent
              accountBalance) as [err|]; split.
  - discriminate.
  - intros H. exfalso. apply H. exists err. reflexivity.
  - intros _ [err H]. discriminate.
  - reflexivity.
Qed.

(** What a successful validation guarantees. *)
Lemma ValidateInputs_None_inv side entryPrice stopLoss riskPercent
    accountBalance :
  calculator.ValidateInputs c side entryPrice stopLoss riskPercent
    accountBalance = None ->
  0 < entryPrice /\ 0 < stopLoss /\ 0 < riskPercent /\ riskPercent <= 100
  /\ 0 < accountBalance
  /\ (side = calculator.SideLong -> stopLoss < entryPrice)
  /\ (side = calculator.SideShort -> entryPrice < stopLoss).
Proof.
  intros H. apply ValidateInputs_None in H.
  unfold invalid_inputs, stop_loss_violated in H.
  repeat split; try (apply Qnot_le_lt; intros H'; apply H; tauto).
  - apply Qnot_lt_le. intros H'. apply H. tauto.
  - intros ->. apply Qnot_le_lt. intros H'. apply H. tauto.
  - intros ->. apply Qnot_le_lt. intros H'. apply H. tauto.
Qed.

End Validation.

(** ** Sizing and leverage on validated input *)

Section Sizing.

Variable c : calculator.Calculator.

Lemma priceRisk_pos side entryPrice stopLoss riskPercent accountBalance :
  side = calculator.SideLong \/ side = calculator.SideShort ->
  calculator.ValidateInputs c side entryPrice stopLoss riskPercent
    accountBalance = None ->
  0 < priceRisk side entryPrice stopLoss.
Proof.
  intros Hside H. apply ValidateInputs_None_inv in H.
  destruct H as (_ & _ & _ & _ & _ & HL & HS).
  unfold priceRisk. destruct Hside as [-> | ->]; simpl.
  - specialize (HL eq_refl). lra.
  - specialize (HS eq_refl). lra.
Qed.

Lemma CalculateSize_valid side entryPrice stopLoss riskPercent accountBalance :
  side = calculator.SideLong \/ side = calculator.SideShort ->
  calculator.ValidateInputs c side entryPrice stopLoss riskPercent
    accountBalance = None ->
  calculator.CalculateSize c accountBalance riskPercent entryPrice stopLoss
    side
  = Some (accountBalance * (riskPercent / 100)
          / priceRisk side entryPrice stopLoss)
  /\ 0 < accountBalance * (riskPercent / 100)
         / priceRisk side entryPrice stopLoss.
Proof.
  intros Hside H.
  pose proof (priceRisk_pos _ _ _ _ _ Hside H) as Hp.
  apply ValidateInputs_None_inv in H.
  destruct H as (_ & _ & Hr & _ & Hb & _).
  split.
  - unfold calculator.CalculateSize.
    fold (priceRisk side entryPrice stopLoss).
    apply fdiv_Some, Qpos_nonzero, Hp.
  - apply Qdiv_pos; [|assumption].
    apply Qmult_lt_0_compat; [assumption|].
    apply Qdiv_pos; [assumption|reflexivity].
Qed.

(** The branches of [CalculateLeverage] on its required leverage. *)
Lemma CalculateLeverage_branches size price balance (maxLeverage : int) :
  calculator.CalculateLeverage c size price balance maxLeverage
  = (if (required_leverage size price balance >? maxLeverage)%Z
     then maxLeverage
     else if (required_leverage size price balance <? 1)%Z then 1%Z
          else required_leverage size price balance).
Proof. reflexivity. Qed.

(** With a ceiling of at least 1 the result is the clamp of the required
    leverage, whatever integer that is. *)
Lemma CalculateLeverage_range size price balance (maxLeverage : int) :
  (1 <= maxLeverage)%Z ->
  calculator.CalculateLeverage c size price balance maxLeverage
  = clamp (required_leverage size price balance) 1 maxLeverage
  /\ (1 <= calculator.CalculateLeverage c size price balance maxLeverage
       <= maxLeverage)%Z.
Proof.
  intros Hm. rewrite CalculateLeverage_branches. unfold clamp.
  destruct (Z.gtb_spec (required_leverage size price balance) maxLeverage);
    [split; lia|].
  destruct (Z.ltb_spec (required_leverage size price balance) 1);
    split; lia.
Qed.

(** The required leverage is the ceiling of the float64 quotient when that
    fits the range of [int]. *)
Lemma required_leverage_in_range size price balance (q : float64) :
  float_quotient size price balance = Some q ->
  (min_int <= Qceiling q <= max_int)%Z ->
  required_leverage size price balance = Qceiling q.
Proof.
  intros E H. unfold required_leverage. rewrite E.
  apply int_of_float64_Ceil, H.
Qed.

(** The last bit of the size can move the leverage.  For a balance of 1000, a
    risk of 11 percent, an entry of 45000 and a stop loss of 44950, float64
    computes the size [1000*(11/100)/50] as the number just above 2.2, for
    which the leverage is 100; for the exact 2.2 it is 99.  This is why the
    leverage of a plan is stated below as the result of [CalculateLeverage]
    on the plan's own size, and not as a ceiling of the exact quotient. *)
Example CalculateLeverage_follows_the_rounded_size :
  exists fraction riskAmount size : float64,
    round64 (11 / 100) = Some fraction
    /\ round64 (1000 * fraction) = Some riskAmount
    /\ round64 (riskAmount / (45000 - 44950)) = Some size
    /\ 2.2 < size
    /\ calculator.CalculateLeverage c size 45000 1000 125 = 100%Z
    /\ calculator.CalculateLeverage c 2.2 45000 1000 125 = 99%Z.
Proof.
  do 3 eexists.
  split; [vm_compute; reflexivity|]. split; [vm_compute; reflexivity|].
  split; [vm_compute; reflexivity|]. split; [vm_compute; reflexivity|].
  split; vm_compute; reflexivity.
Qed.

End Sizing.

(** ** The risk-ratio strategy *)

Section Strategy.

Variable s : riskratio.RiskRatioStrategy.
Variable ctx : Context.
Variable now : Time.
Variable params : PositionParams.t.

Lemma calculatorSideFromStrategy_cases (side : Side) :
  riskratio.calculatorSideFromStrategy side = calculator.SideLong
  \/ riskratio.calculatorSideFromStrategy side = calculator.SideShort.
Proof.
  unfold riskratio.calculatorSideFromStrategy.
  destruct (String.eqb side SideLong); [left|right]; reflexivity.
Qed.

Lemma CalculatePosition_invalid (err : error) :
  validate s params = Some err ->
  riskratio.CalculatePosition s ctx now params
  = Some (None, Some (ErrValidationFailed err)).
Proof.
  unfold validate, riskratio.CalculatePosition. cbv zeta.
  intros ->. reflexivity.
Qed.

Lemma CalculatePosition_valid :
  validate s params = None ->
  riskratio.CalculatePosition s ctx now params
  = Some (Some (valid_plan s now params), None).
Proof.
  intros H. unfold validate in H.
  destruct (CalculateSize_valid _ _ _ _ _ _
              (calculatorSideFromStrategy_cases _) H) as [Esize _].
  unfold riskratio.CalculatePosition. cbv zeta.
  rewrite H, Esize. reflexivity.
Qed.

End Strategy.

(** Case analysis on the validation [CalculatePosition] starts with. *)
Ltac validate_cases s params err E :=
  destruct (validate s params) as [err|] eqn:E.

(** ** The strategy's test table, replayed on the model *)

Section TestTable.

Ltac run_plan := do 2 eexists; repeat split; reflexivity.
Ltac run_error := eexists; reflexivity.

Example test_long_2pct :
  plan_is (riskratio.CalculatePosition (riskratio.New 2) tt 0%Z long_2pct)
    0.04 2%Z 46000.
Proof. run_plan. Qed.

Example test_short_2pct :
  plan_is (riskratio.CalculatePosition (riskratio.New 2) tt 0%Z short_2pct)
    0.2 1%Z 2800.
Proof. run_plan. Qed.

Example test_long_1pct :
  plan_is (riskratio.CalculatePosition (riskratio.New 3) tt 0%Z long_1pct)
    0.04 1%Z 51500.
Proof. run_plan. Qed.

Example test_long_tight_stop :
  plan_is
    (riskratio.CalculatePosition (riskratio.New 2) tt 0%Z long_tight_stop)
    0.2 9%Z 45200.
Proof. run_plan. Qed.

Example test_long_stop_above :
  is_error
    (riskratio.CalculatePosition (riskratio.New 2) tt 0%Z long_stop_above).
Proof. run_error. Qed.

Example test_short_stop_below :
  is_error
    (riskratio.CalculatePosition (riskratio.New 2) tt 0%Z short_stop_below).
Proof. run_error. Qed.

Example test_negative_entry :
  is_error
    (riskratio.CalculatePosition (riskratio.New 2) tt 0%Z negative_entry).
Proof. run_error. Qed.

Example test_risk_too_high :
  is_error
    (riskratio.CalculatePosition (riskratio.New 2) tt 0%Z risk_too_high).
Proof. run_error. Qed.

Example test_zero_balance :
  is_error
    (riskratio.CalculatePosition (riskratio.New 2) tt 0%Z zero_balance).
Proof. run_error. Qed.

Example test_entry_equals_stop :
  is_error
    (riskratio.CalculatePosition (riskratio.New 2) tt 0%Z entry_equals_stop).
Proof. run_error. Qed.

End TestTable.

(** ** The specification's claims *)

Section Claims.

(** C1. For every input passing validation, [CalculateSize] returns
    [balance*riskPercent/100] divided by [entry - stopLoss] for Long and by
    [stopLoss - entry] for Short; balance=1000, riskPercent=2, entry=45000,
    stopLoss=44500, Long gives 0.04. *)
Theorem CalculateSize_formula :
  (forall c balance riskPercent entry stopLoss,
     calculator.ValidateInputs c calculator.SideLong entry stopLoss
       riskPercent balance = None ->
     exists size,
       calculator.CalculateSize c balance riskPercent entry stopLoss
         calculator.SideLong = Some size
       /\ size == balance * riskPercent / 100 / (entry - stopLoss))
  /\ (forall c balance riskPercent entry stopLoss,
     calculator.ValidateInputs c calculator.SideShort entry stopLoss
       riskPercent balance = None ->
     exists size,
       calculator.CalculateSize c balance riskPercent entry stopLoss
         calculator.SideShort = Some size
       /\ size == balance * riskPercent / 100 / (stopLoss - entry))
  /\ (exists size,
       calculator.CalculateSize (calculator.New 125) 1000 2 45000 44500
         calculator.SideLong = Some size
       /\ size == 0.04).
Proof.
  split; [|split].
  - intros c balance riskPercent entry stopLoss H.
    pose proof (priceRisk_pos c _ _ _ _ _ (or_introl eq_refl) H) as Hp.
    destruct (CalculateSize_valid c _ _ _ _ _ (or_introl eq_refl) H) as [E _].
    eexists. split; [exact E|].
    unfold priceRisk in *. simpl in *. field. lra.
  - intros c balance riskPercent entry stopLoss H.
    pose proof (priceRisk_pos c _ _ _ _ _ (or_intror eq_refl) H) as Hp.
    destruct (CalculateSize_valid c _ _ _ _ _ (or_intror eq_refl) H) as [E _].
    eexists. split; [exact E|].
    unfold priceRisk in *. simpl in *. field. lra.
  - eexists. split; reflexivity.
Qed.

(** C1 on the specification's example: the input passes validation and the
    formula applies. *)
Lemma CalculateSize_formula_witness :
  calculator.ValidateInputs (calculator.New 125) calculator.SideLong
    45000 44500 2 1000 = None
  /\ exists size,
       calculator.CalculateSize (calculator.New 125) 1000 2 45000 44500
         calculator.SideLong = Some size
       /\ size == 1000 * 2 / 100 / (45000 - 44500).
Proof.
  split; [reflexivity|].
  apply (proj1 CalculateSize_formula (calculator.New 125) 1000 2 45000 44500).
  reflexivity.
Defined.




(** C3. [ValidateInputs] returns an error exactly when entryPrice <= 0, or
    stopLoss <= 0, or riskPercent <= 0, or riskPercent > 100, or
    accountBalance <= 0, or the stop loss is on the wrong side of the entry
    (Long with stopLoss >= entryPrice, Short with stopLoss <= entryPrice,
    equality rejected for both); otherwise it returns no error. *)
Theorem ValidateInputs_error_iff :
  forall c side entryPrice stopLoss riskPercent accountBalance,
    let rejected :=
      entryPrice <= 0 \/ stopLoss <= 0 \/ riskPercent <= 0
      \/ 100 < riskPercent \/ accountBalance <= 0
      \/ ((side = calculator.SideLong /\ entryPrice <= stopLoss)
          \/ (side = calculator.SideShort /\ stopLoss <= entryPrice)) in
    ((exists err, calculator.ValidateInputs c side entryPrice stopLoss
                    riskPercent accountBalance = Some err) <-> rejected)
    /\ (calculator.ValidateInputs c side entryPrice stopLoss riskPercent
          accountBalance = None <-> ~ rejected).
Proof.
  intros c side entryPrice stopLoss riskPercent accountBalance rejected.
  split.
  - apply ValidateInputs_Some.
  - apply ValidateInputs_None.
Qed.

(** C4 as stated fails: the strategy built by [New] holds a calculator with
    ceiling 125, the request below is valid and allows up to 200, and the
    plan comes back with leverage 200. *)
Lemma CalculatePosition_leverage_above_125 :
  calculator.maxLeverage (riskratio.New 2).(riskratio.calculator) = 125%Z
  /\ validate (riskratio.New 2) high_leverage_params = None
  /\ exists plan,
       riskratio.CalculatePosition (riskratio.New 2) tt 0%Z
         high_leverage_params = Some (Some plan, None)
       /\ plan.(PositionPlan.Leverage) = 200%Z
       /\ (125 < plan.(PositionPlan.Leverage))%Z.
Proof.
  split; [reflexivity|]. split; [reflexivity|].
  eexists. split; [vm_compute; reflexivity|]. split; [reflexivity|].
  vm_compute. reflexivity.
Qed.

(** C4 amended.  Whenever [CalculatePosition] returns a plan, its leverage
    is what [CalculateLeverage] returns for the plan's size, the entry price,
    the balance and the caller's [MaxLeverage]: for [MaxLeverage >= 1] it
    lies between 1 and [MaxLeverage], so it is at most 125 whenever
    [MaxLeverage <= 125].  The plan's [RiskPercent] is the requested one, and
    the ceiling of the calculator the strategy holds plays no part in the
    result. *)
Theorem CalculatePosition_leverage_capped_by_caller :
  forall s ctx now params plan,
    riskratio.CalculatePosition s ctx now params = Some (Some plan, None) ->
    plan.(PositionPlan.Leverage)
      = calculator.CalculateLeverage s.(riskratio.calculator)
          plan.(PositionPlan.Size) params.(PositionParams.EntryPrice)
          params.(PositionParams.AccountBalance)
          params.(PositionParams.MaxLeverage)
    /\ ((1 <= params.(PositionParams.MaxLeverage))%Z ->
        (1 <= plan.(PositionPlan.Leverage)
         <= params.(PositionParams.MaxLeverage))%Z)
    /\ ((1 <= params.(PositionParams.MaxLeverage) <= 125)%Z ->
        (plan.(PositionPlan.Leverage) <= 125)%Z)
    /\ plan.(PositionPlan.RiskPercent) = params.(PositionParams.RiskPercent)
    /\ (forall c,
          riskratio.CalculatePosition
            {| riskratio.calculator := c;
               riskratio.rrRatio := s.(riskratio.rrRatio) |} ctx now params
          = riskratio.CalculatePosition s ctx now params).
Proof.
  intros s ctx now params plan H.
  validate_cases s params err E.
  - rewrite (CalculatePosition_invalid s ctx now params err E) in H.
    discriminate H.
  - rewrite (CalculatePosition_valid s ctx now params E) in H.
    injection H as <-. cbn [valid_plan PositionPlan.Leverage
      PositionPlan.Size PositionPlan.RiskPercent].
    split; [reflexivity|]. split; [|split; [|split]].
    + intros Hm. apply CalculateLeverage_range, Hm.
    + intros [Hm Hc].
      pose proof (proj2 (CalculateLeverage_range s.(riskratio.calculator)
                           (plan_size params)
                           params.(PositionParams.EntryPrice)
                           params.(PositionParams.AccountBalance) _ Hm)).
      lia.
    + reflexivity.
    + intros c. reflexivity.
Qed.

(** C4 amended, on the request that allows a leverage of 200: the plan's
    leverage lies between 1 and 200. *)
Lemma CalculatePosition_leverage_capped_by_caller_witness :
  riskratio.CalculatePosition (riskratio.New 2) tt 0%Z high_leverage_params
    = Some (Some (valid_plan (riskratio.New 2) 0%Z high_leverage_params), None)
  /\ (1 <= (valid_plan (riskratio.New 2%Q) 0 high_leverage_params)
             .(PositionPlan.Leverage) <= 200)%Z.
Proof.
  split; [vm_compute; reflexivity|].
  destruct (CalculatePosition_leverage_capped_by_caller
              (riskratio.New 2) tt 0%Z high_leverage_params
              (valid_plan (riskratio.New 2) 0%Z high_leverage_params))
    as (_ & H & _).
  - vm_compute. reflexivity.
  - apply H. vm_compute. discriminate.
Defined.

(** C5. [CalculatePosition] returns either an error and no plan, the error
    being the wrapped error of [ValidateInputs], or no error and the complete
    plan: the symbol, side and entry price of the request, the size
    [CalculateSize] returns, the leverage [CalculateLeverage] returns for
    that size, one stop loss (price [params.StopLoss], type Fixed), one take
    profit (the price of [CalculateRRTakeProfit], 100 percent, type Limit),
    [RiskAmount = balance*riskPercent/100], the requested [RiskPercent],
    [NotionalValue = size*entryPrice], the name "risk-ratio" and the time of
    the call. *)
Theorem CalculatePosition_error_or_complete_plan :
  forall s ctx now params,
    (exists err,
       calculator.ValidateInputs s.(riskratio.calculator)
         (riskratio.calculatorSideFromStrategy params.(PositionParams.Side))
         params.(PositionParams.EntryPrice) params.(PositionParams.StopLoss)
         params.(PositionParams.RiskPercent)
         params.(PositionParams.AccountBalance) = Some err
       /\ riskratio.CalculatePosition s ctx now params
          = Some (None, Some (ErrValidationFailed err)))
    \/ (calculator.ValidateInputs s.(riskratio.calculator)
         (riskratio.calculatorSideFromStrategy params.(PositionParams.Side))
         params.(PositionParams.EntryPrice) params.(PositionParams.StopLoss)
         params.(PositionParams.RiskPercent)
         params.(PositionParams.AccountBalance) = None
       /\ exists size,
           calculator.CalculateSize s.(riskratio.calculator)
             params.(PositionParams.AccountBalance)
             params.(PositionParams.RiskPercent)
             params.(PositionParams.EntryPrice)
             params.(PositionParams.StopLoss)
             (riskratio.calculatorSideFromStrategy
                params.(PositionParams.Side)) = Some size
           /\ riskratio.CalculatePosition s ctx now params
              = Some (Some {|
                  PositionPlan.Symbol := params.(PositionParams.Symbol);
                  PositionPlan.Side := params.(PositionParams.Side);
                  PositionPlan.Size := size;
                  PositionPlan.EntryPrice :=
                    params.(PositionParams.EntryPrice);
                  PositionPlan.Leverage :=
                    calculator.CalculateLeverage s.(riskratio.calculator)
                      size params.(PositionParams.EntryPrice)
                      params.(PositionParams.AccountBalance)
                      params.(PositionParams.MaxLeverage);
                  PositionPlan.StopLoss := Some {|
                    StopLossLevel.Price := params.(PositionParams.StopLoss);
                    StopLossLevel.Type_ := StopLossTypeFixed;
                    StopLossLevel.ActivationPrice := 0;
                    StopLossLevel.CallbackRate := 0 |};
                  PositionPlan.TakeProfits := [ {|
                    TakeProfitLevel.Price :=
                      calculator.CalculateRRTakeProfit
                        s.(riskratio.calculator)
                        params.(PositionParams.EntryPrice)
                        params.(PositionParams.StopLoss)
                        s.(riskratio.rrRatio)
                        (riskratio.calculatorSideFromStrategy
                           params.(PositionParams.Side));
                    TakeProfitLevel.Percentage := 100;
                    TakeProfitLevel.Type_ := TakeProfitTypeLimit;
                    TakeProfitLevel.ActivationPrice := 0;
                    TakeProfitLevel.CallbackRate := 0 |} ];
                  PositionPlan.RiskAmount :=
                    params.(PositionParams.AccountBalance)
                    * params.(PositionParams.RiskPercent) / 100;
                  PositionPlan.RiskPercent :=
                    params.(PositionParams.RiskPercent);
                  PositionPlan.NotionalValue :=
                    size * params.(PositionParams.EntryPrice);
                  PositionPlan.StrategyName := "risk-ratio"%string;
                  PositionPlan.Timestamp := now |}, None)).
Proof.
  intros s ctx now params.
  fold (validate s params). validate_cases s params err E.
  - left. exists err. split; [reflexivity|].
    apply CalculatePosition_invalid, E.
  - right. split; [reflexivity|].
    pose proof E as E'. unfold validate in E'.
    destruct (CalculateSize_valid _ _ _ _ _ _
                (calculatorSideFromStrategy_cases _) E') as [Esize _].
    eexists. split; [exact Esize|].
    rewrite (CalculatePosition_valid s ctx now params E). reflexivity.
Qed.

(** C6. [CalculateRRTakeProfit] returns [entry + |entry - stopLoss|*rrRatio]
    for Long and [entry - |entry - stopLoss|*rrRatio] for Short; Short with
    entry=3000, stopLoss=3100, rr=2 gives 2800 and Long with entry=45000,
    stopLoss=44500, rr=2 gives 46000. *)
Theorem CalculateRRTakeProfit_formula :
  (forall c entry stopLoss rrRatio,
     calculator.CalculateRRTakeProfit c entry stopLoss rrRatio
       calculator.SideLong
     = entry + Qabs (entry - stopLoss) * rrRatio)
  /\ (forall c entry stopLoss rrRatio,
     calculator.CalculateRRTakeProfit c entry stopLoss rrRatio
       calculator.SideShort
     = entry - Qabs (entry - stopLoss) * rrRatio)
  /\ calculator.CalculateRRTakeProfit (calculator.New 125) 3000 3100 2
       calculator.SideShort == 2800
  /\ calculator.CalculateRRTakeProfit (calculator.New 125) 45000 44500 2
       calculator.SideLong == 46000.
Proof.
  split; [|split; [|split]].
  - intros c entry stopLoss rrRatio. reflexivity.
  - intros c entry stopLoss rrRatio. reflexivity.
  - vm_compute. reflexivity.
  - vm_compute. reflexivity.
Qed.

(** C7. Two calls of [CalculatePosition] on the same parameters, whatever the
    clock reads, give the same error, or two plans equal in every field but
    [Timestamp]. *)
Theorem CalculatePosition_deterministic :
  forall s ctx1 now1 ctx2 now2 params,
    (exists err,
       riskratio.CalculatePosition s ctx1 now1 params = Some (None, Some err)
       /\ riskratio.CalculatePosition s ctx2 now2 params
          = Some (None, Some err))
    \/ (exists plan1 plan2,
       riskratio.CalculatePosition s ctx1 now1 params
         = Some (Some plan1, None)
       /\ riskratio.CalculatePosition s ctx2 now2 params
          = Some (Some plan2, None)
       /\ eq_except_Timestamp plan1 plan2).
Proof.
  intros s ctx1 now1 ctx2 now2 params.
  validate_cases s params err E.
  - left. exists (ErrValidationFailed err).
    split; apply CalculatePosition_invalid, E.
  - right. exists (valid_plan s now1 params), (valid_plan s now2 params).
    split; [apply CalculatePosition_valid, E|].
    split; [apply CalculatePosition_valid, E|].
    unfold eq_except_Timestamp. simpl. repeat split; reflexivity.
Qed.

(** C8. For every position and price, [OnPriceUpdate] returns an action of
    type None and no error, [ShouldClose] returns (false, ""), and
    [OnPositionOpened] returns no error. *)
Theorem lifecycle_no_op :
  forall s ctx position currentPrice,
    (exists action,
       riskratio.OnPriceUpdate s ctx position currentPrice
         = (Some action, None)
       /\ action.(StrategyAction.Type_) = ActionTypeNone)
    /\ riskratio.ShouldClose s ctx position currentPrice = (false, ""%string)
    /\ riskratio.OnPositionOpened s ctx position = None.
Proof.
  intros s ctx position currentPrice.
  split; [|split; reflexivity].
  eexists. split; reflexivity.
Qed.

(** C9. [CalculatePnLPercent] returns 0 when entryPrice <= 0 and otherwise
    [(mark-entry)/entry*100] for Long and [(entry-mark)/entry*100] for Short;
    [CalculateDistanceToPrice] returns 0 when currentPrice <= 0; neither
    divides by zero: both return a number on every input. *)
Theorem percent_functions_total :
  (forall c side entryPrice markPrice,
     entryPrice <= 0 ->
     calculator.CalculatePnLPercent c side entryPrice markPrice = Some 0)
  /\ (forall c entryPrice markPrice,
     0 < entryPrice ->
     calculator.CalculatePnLPercent c calculator.SideLong entryPrice markPrice
     = Some ((markPrice - entryPrice) / entryPrice * 100))
  /\ (forall c entryPrice markPrice,
     0 < entryPrice ->
     calculator.CalculatePnLPercent c calculator.SideShort entryPrice
       markPrice
     = Some ((entryPrice - markPrice) / entryPrice * 100))
  /\ (forall c side currentPrice targetPrice,
     currentPrice <= 0 ->
     calculator.CalculateDistanceToPrice c side currentPrice targetPrice
     = Some 0)
  /\ (forall c side entryPrice markPrice,
     exists percent,
       calculator.CalculatePnLPercent c side entryPrice markPrice
       = Some percent)
  /\ (forall c side currentPrice targetPrice,
     exists percent,
       calculator.CalculateDistanceToPrice c side currentPrice targetPrice
       = Some percent).
Proof.
  repeat apply conj.
  - intros c side entryPrice markPrice H.
    unfold calculator.CalculatePnLPercent.
    apply fle_true in H. rewrite H. reflexivity.
  - intros c entryPrice markPrice H. unfold calculator.CalculatePnLPercent.
    pose proof (Qpos_nonzero _ H) as H0. apply fle_false in H.
    rewrite H. simpl. rewrite (fdiv_Some _ _ H0). reflexivity.
  - intros c entryPrice markPrice H. unfold calculator.CalculatePnLPercent.
    pose proof (Qpos_nonzero _ H) as H0. apply fle_false in H.
    rewrite H. simpl. rewrite (fdiv_Some _ _ H0). reflexivity.
  - intros c side currentPrice targetPrice H.
    unfold calculator.CalculateDistanceToPrice.
    apply fle_true in H. rewrite H. reflexivity.
  - intros c side entryPrice markPrice.
    unfold calculator.CalculatePnLPercent.
    destruct (fle entryPrice 0) eqn:E; [eexists; reflexivity|].
    apply fle_false, Qpos_nonzero in E.
    destruct (String.eqb side calculator.SideLong);
      rewrite (fdiv_Some _ _ E); eexists; reflexivity.
  - intros c side currentPrice targetPrice.
    unfold calculator.CalculateDistanceToPrice.
    destruct (fle currentPrice 0) eqn:E; [eexists; reflexivity|].
    apply fle_false, Qpos_nonzero in E.
    destruct (String.eqb side calculator.SideLong);
      rewrite (fdiv_Some _ _ E); eexists; reflexivity.
Qed.

(** C9 on a position not yet initialised (entry price 0) and on an open Long
    position. *)
Lemma percent_functions_total_witness :
  calculator.CalculatePnLPercent (calculator.New 125) calculator.SideLong
    0 46000 = Some 0
  /\ calculator.CalculatePnLPercent (calculator.New 125) calculator.SideLong
       45000 46000 = Some ((46000 - 45000) / 45000 * 100).
Proof.
  destruct percent_functions_total as (H0 & HL & _).
  split.
  - apply H0. discriminate.
  - apply HL. reflexivity.
Defined.

(** C10 as stated fails where float64 leaves the real numbers.  Above the
    range of the int type: with size 2*10^19, price 1 and balance 2 the
    ceiling of the quotient, 10^19, is above maxLeverage 0, and the result is
    1, not 0.  And on an underflow: with size and price 2^-600 and balance 1
    the quotient is positive, so its ceiling 1 is above maxLeverage 0, but the
    float64 product is 0 and the result is 1, not 0. *)
Lemma CalculateLeverage_is_1_above_the_int_range :
  (0 < Qceiling (20000000000000000000 * 1 / 2))%Z
  /\ calculator.CalculateLeverage (calculator.New 125)
       20000000000000000000 1 2 0 = 1%Z
  /\ (0 < Qceiling (2 ^ (-600) * 2 ^ (-600) / 1))%Z
  /\ (exists notional,
        mul64 (2 ^ (-600)) (2 ^ (-600)) = Some notional /\ notional == 0)
  /\ calculator.CalculateLeverage (calculator.New 125)
       (2 ^ (-600)) (2 ^ (-600)) 1 0 = 1%Z.
Proof.
  split; [vm_compute; reflexivity|]. split; [vm_compute; reflexivity|].
  split; [vm_compute; reflexivity|]. split; [|vm_compute; reflexivity].
  eexists. split; [vm_compute; reflexivity|]. reflexivity.
Qed.

(** C10 amended.  When the required leverage [int(math.Ceil(q))] of the
    float64 quotient [q] is above [maxLeverage], [CalculateLeverage] returns
    [maxLeverage] itself, also below 1 (maxLeverage=0 gives 0); when it is at
    most [maxLeverage] the result is the larger of 1 and the required
    leverage, so the clamp to 1 acts only then.  The required leverage is
    [ceil(q)] whenever [q] is finite and [ceil(q)] fits the int type.  The
    strategy, whose validation never looks at [MaxLeverage], returns a plan
    on every validated request, with the leverage [CalculateLeverage]
    returns for the plan's size, hence [MaxLeverage] itself whenever the
    required leverage is above it. *)
Theorem CalculateLeverage_ceiling_unchecked :
  (forall c size price balance (maxLeverage : int),
     (maxLeverage < required_leverage size price balance)%Z ->
     calculator.CalculateLeverage c size price balance maxLeverage
     = maxLeverage)
  /\ (forall c size price balance (maxLeverage : int),
     (required_leverage size price balance <= maxLeverage)%Z ->
     calculator.CalculateLeverage c size price balance maxLeverage
     = Z.max 1 (required_leverage size price balance))
  /\ (forall size price balance q,
       float_quotient size price balance = Some q ->
       (min_int <= Qceiling q <= max_int)%Z ->
       required_leverage size price balance = Qceiling q)
  /\ calculator.CalculateLeverage (calculator.New 125) 0.04 45000 1000 0
     = 0%Z
  /\ (forall s ctx now params,
     calculator.ValidateInputs s.(riskratio.calculator)
       (riskratio.calculatorSideFromStrategy params.(PositionParams.Side))
       params.(PositionParams.EntryPrice) params.(PositionParams.StopLoss)
       params.(PositionParams.RiskPercent)
       params.(PositionParams.AccountBalance) = None ->
     exists plan,
       riskratio.CalculatePosition s ctx now params = Some (Some plan, None)
       /\ plan.(PositionPlan.Leverage)
          = calculator.CalculateLeverage s.(riskratio.calculator)
              plan.(PositionPlan.Size) params.(PositionParams.EntryPrice)
              params.(PositionParams.AccountBalance)
              params.(PositionParams.MaxLeverage)
       /\ ((params.(PositionParams.MaxLeverage)
            < required_leverage plan.(PositionPlan.Size)
                params.(PositionParams.EntryPrice)
                params.(PositionParams.AccountBalance))%Z ->
           plan.(PositionPlan.Leverage)
           = params.(PositionParams.MaxLeverage))).
Proof.
  split; [|split; [|split; [|split]]].
  - intros c size price balance maxLeverage H.
    rewrite CalculateLeverage_branches.
    destruct (Z.gtb_spec (required_leverage size price balance) maxLeverage);
      [reflexivity|lia].
  - intros c size price balance maxLeverage H.
    rewrite CalculateLeverage_branches.
    destruct (Z.gtb_spec (required_leverage size price balance) maxLeverage);
      [lia|].
    destruct (Z.ltb_spec (required_leverage size price balance) 1); lia.
  - apply required_leverage_in_range.
  - vm_compute. reflexivity.
  - intros s ctx now params H.
    exists (valid_plan s now params).
    split; [apply CalculatePosition_valid, H|].
    cbn [valid_plan PositionPlan.Leverage PositionPlan.Size].
    split; [reflexivity|].
    intros Hlt. rewrite CalculateLeverage_branches.
    destruct (Z.gtb_spec
                (required_leverage (plan_size params)
                   params.(PositionParams.EntryPrice)
                   params.(PositionParams.AccountBalance))
                params.(PositionParams.MaxLeverage)); [reflexivity|lia].
Qed.

(** C10 amended, on a valid request whose [MaxLeverage] is 0: the required
    leverage is 2 and the plan has leverage 0. *)
Lemma CalculateLeverage_ceiling_unchecked_witness :
  exists plan,
    riskratio.CalculatePosition (riskratio.New 2) tt 0%Z zero_leverage_params
      = Some (Some plan, None)
    /\ plan.(PositionPlan.Leverage) = 0%Z.
Proof.
  destruct CalculateLeverage_ceiling_unchecked as (_ & _ & _ & _ & H).
  destruct (H (riskratio.New 2) tt 0%Z zero_leverage_params eq_refl)
    as (plan & E & _ & Hcap).
  exists plan. split; [exact E|].
  assert (Hplan : Some (Some plan, @None error)
                  = Some (Some (valid_plan (riskratio.New 2) 0%Z
                                  zero_leverage_params), None)).
  { rewrite <- E. vm_compute. reflexivity. }
  injection Hplan as ->. vm_compute. reflexivity.
Defined.

End Claims.

(** ** Further properties of the calculator *)

Section CalculatorOrder.

Variable c : calculator.Calculator.

(** [ValidateInputs] on an input whose four numbers are in range is
    [ValidateStopLoss]. *)
Lemma ValidateInputs_numbers_valid side entryPrice stopLoss riskPercent
    accountBalance :
  numbers_valid entryPrice stopLoss riskPercent accountBalance ->
  calculator.ValidateInputs c side entryPrice stopLoss riskPercent
    accountBalance
  = calculator.ValidateStopLoss c side entryPrice stopLoss.
Proof.
  intros (He & Hs & Hr & Hr' & Ha). unfold calculator.ValidateInputs.
  apply fle_false in He, Hs, Hr, Ha. apply fgt_false in Hr'.
  rewrite He, Hs, Hr, Hr', Ha. simpl.
  destruct (calculator.ValidateStopLoss c side entryPrice stopLoss);
    reflexivity.
Qed.

(** X1. The error of [ValidateInputs] names the first check that fails, in
    the order entry price, stop loss, risk percent, account equity, side of
    the stop loss; it carries the offending values and is never an error of
    another kind. *)
Theorem ValidateInputs_first_failure :
  forall side entryPrice stopLoss riskPercent accountBalance,
    match calculator.ValidateInputs c side entryPrice stopLoss riskPercent
            accountBalance with
    | None => True
    | Some (ErrEntryPrice x) => x = entryPrice /\ entryPrice <= 0
    | Some (ErrStopLoss x) => x = stopLoss /\ 0 < entryPrice /\ stopLoss <= 0
    | Some (ErrRiskPercent x) =>
        x = riskPercent /\ 0 < entryPrice /\ 0 < stopLoss
        /\ (riskPercent <= 0 \/ 100 < riskPercent)
    | Some (ErrAccountEquity x) =>
        x = accountBalance /\ 0 < entryPrice /\ 0 < stopLoss
        /\ 0 < riskPercent /\ riskPercent <= 100 /\ accountBalance <= 0
    | Some (ErrLongStopLoss x y) =>
        x = stopLoss /\ y = entryPrice /\ side = calculator.SideLong
        /\ numbers_valid entryPrice stopLoss riskPercent accountBalance
        /\ entryPrice <= stopLoss
    | Some (ErrShortStopLoss x y) =>
        x = stopLoss /\ y = entryPrice /\ side = calculator.SideShort
        /\ numbers_valid entryPrice stopLoss riskPercent accountBalance
        /\ stopLoss <= entryPrice
    | Some _ => False
    end.
Proof.
  intros side entryPrice stopLoss riskPercent accountBalance.
  unfold calculator.ValidateInputs.
  destruct (fle entryPrice 0) eqn:E1.
  { apply fle_true in E1. split; [reflexivity | assumption]. }
  apply fle_false in E1.
  destruct (fle stopLoss 0) eqn:E2.
  { apply fle_true in E2. repeat split; assumption. }
  apply fle_false in E2.
  destruct (fle riskPercent 0) eqn:E3.
  { apply fle_true in E3. simpl. repeat split; try assumption. now left. }
  apply fle_false in E3.
  destruct (fgt riskPercent 100) eqn:E4.
  { apply fgt_true in E4. simpl. repeat split; try assumption. now right. }
  apply fgt_false in E4. simpl.
  destruct (fle accountBalance 0) eqn:E5.
  { apply fle_true in E5. repeat split; assumption. }
  apply fle_false in E5.
  assert (Hn : numbers_valid entryPrice stopLoss riskPercent accountBalance)
    by (repeat split; assumption).
  unfold calculator.ValidateStopLoss.
  destruct (String.eqb_spec side calculator.SideLong) as [HL|HL]; simpl.
  - destruct (fge stopLoss entryPrice) eqn:E6; simpl.
    + apply fge_true in E6. repeat split; assumption.
    + destruct (String.eqb_spec side calculator.SideShort) as [HS|HS];
        [rewrite HL in HS; discriminate HS | exact I].
  - destruct (String.eqb_spec side calculator.SideShort) as [HS|HS]; simpl;
      [|exact I].
    destruct (fle stopLoss entryPrice) eqn:E6; [|exact I].
    apply fle_true in E6. repeat split; assumption.
Qed.

(** X2. [ValidatePriceLogic] rejects exactly a LONG entry at or above the
    current price and a SHORT entry at or below it.  So an entry at the
    current price is rejected for both sides, and at any other entry price
    exactly one of LONG and SHORT is accepted. *)
Theorem ValidatePriceLogic_error_iff :
  forall side entry current,
    ((exists err,
        calculator.ValidatePriceLogic c side entry current = Some err)
     <-> (side = calculator.SideLong /\ current <= entry)
         \/ (side = calculator.SideShort /\ entry <= current))
    /\ (entry == current ->
        calculator.ValidatePriceLogic c calculator.SideLong entry current
          <> None
        /\ calculator.ValidatePriceLogic c calculator.SideShort entry current
          <> None)
    /\ (~ entry == current ->
        (calculator.ValidatePriceLogic c calculator.SideLong entry current
           = None
         <-> calculator.ValidatePriceLogic c calculator.SideShort entry
               current <> None)).
Proof.
  intros side entry current.
  unfold calculator.ValidatePriceLogic. split; [|split].
  - destruct (String.eqb_spec side calculator.SideLong) as [HL|HL];
    destruct (String.eqb_spec side calculator.SideShort) as [HS|HS];
    destruct (fge entry current) eqn:E1; destruct (fle entry current) eqn:E2;
    simpl;
    try apply fge_true in E1; try apply fle_true in E2;
    try apply fle_false in E1; try apply fle_false in E2;
    (split;
     [ intros [err H]; first [discriminate H | tauto | congruence]
     | intros [[H1 H2]|[H1 H2]];
       first [ eexists; reflexivity | congruence
             | exfalso; apply (Qlt_not_le _ _ E1), H2
             | exfalso; apply (Qlt_not_le _ _ E2), H2 ] ]).
  - intros E. simpl.
    assert (H1 : fge entry current = true) by (apply fge_true; lra).
    assert (H2 : fle entry current = true) by (apply fle_true; lra).
    rewrite H1, H2. split; discriminate.
  - intros E. simpl.
    destruct (fge entry current) eqn:E1; destruct (fle entry current) eqn:E2;
      try apply fge_true in E1; try apply fle_true in E2;
      try apply fle_false in E1; try apply fle_false in E2.
    + exfalso. apply E. lra.
    + split; [discriminate | intros H; exfalso; apply H; reflexivity].
    + split; [discriminate | reflexivity].
    + exfalso. lra.
Qed.

End CalculatorOrder.

Section UnknownSide.

Variable c : calculator.Calculator.

Lemma Qdiv_pos_neg (x y : Q) : 0 < x -> y < 0 -> x / y < 0.
Proof.
  intros Hx Hy.
  assert (H : 0 < x / (- y)) by (apply Qdiv_pos; lra).
  assert (E : x / y == - (x / (- y))) by (field; lra).
  rewrite E. lra.
Qed.

Lemma ValidateStopLoss_unknown_side side entry stopLoss :
  side <> calculator.SideLong -> side <> calculator.SideShort ->
  calculator.ValidateStopLoss c side entry stopLoss = None.
Proof.
  intros HL HS. unfold calculator.ValidateStopLoss.
  apply String.eqb_neq in HL, HS. rewrite HL, HS. reflexivity.
Qed.

(** X3. For a side that is neither LONG nor SHORT the stop loss is not
    checked against the entry: [ValidateInputs] accepts exactly when the four
    numbers are in range.  [CalculateSize] then uses the Short formula, so
    the size has a zero divisor when the stop loss equals the entry and is
    negative when the stop loss is below it. *)
Theorem unknown_side_is_not_validated :
  forall side entryPrice stopLoss riskPercent accountBalance,
    side <> calculator.SideLong -> side <> calculator.SideShort ->
    (calculator.ValidateInputs c side entryPrice stopLoss riskPercent
       accountBalance = None
     <-> numbers_valid entryPrice stopLoss riskPercent accountBalance)
    /\ (stopLoss == entryPrice ->
        calculator.CalculateSize c accountBalance riskPercent entryPrice
          stopLoss side = None)
    /\ (numbers_valid entryPrice stopLoss riskPercent accountBalance ->
        stopLoss < entryPrice ->
        exists size,
          calculator.CalculateSize c accountBalance riskPercent entryPrice
            stopLoss side = Some size
          /\ size < 0).
Proof.
  intros side entryPrice stopLoss riskPercent accountBalance HL HS.
  pose proof (ValidateStopLoss_unknown_side side entryPrice stopLoss HL HS)
    as Hsl.
  assert (Hside : String.eqb side calculator.SideLong = false)
    by (apply String.eqb_neq; exact HL).
  split; [|split].
  - split.
    + intros H. apply ValidateInputs_None_inv in H.
      destruct H as (H1 & H2 & H3 & H4 & H5 & _).
      repeat split; assumption.
    + intros H. rewrite (ValidateInputs_numbers_valid c _ _ _ _ _ H).
      exact Hsl.
  - intros E. unfold calculator.CalculateSize, fdiv. rewrite Hside.
    assert (Hz : Qeq_bool (stopLoss - entryPrice) 0 = true)
      by (apply Qeq_bool_iff; lra).
    rewrite Hz. reflexivity.
  - intros (_ & _ & Hr & _ & Ha) Hlt.
    unfold calculator.CalculateSize. rewrite Hside.
    rewrite fdiv_Some by lra.
    eexists. split; [reflexivity|].
    apply Qdiv_pos_neg; [|lra].
    apply Qmult_lt_0_compat; [assumption|].
    apply Qdiv_pos; [assumption|reflexivity].
Qed.

End UnknownSide.

(** X3 with no side set: the stop loss at the entry passes validation and the
    size has a zero divisor. *)
Lemma unknown_side_is_not_validated_witness :
  calculator.ValidateInputs (calculator.New 125) ""%string 45000 45000 2 1000
    = None
  /\ calculator.CalculateSize (calculator.New 125) 1000 2 45000 45000
       ""%string = None.
Proof.
  destruct (unknown_side_is_not_validated (calculator.New 125) ""%string
              45000 45000 2 1000) as (H1 & H2 & _).
  - discriminate.
  - discriminate.
  - split.
    + apply H1. unfold numbers_valid. repeat split; reflexivity || discriminate.
    + apply H2. reflexivity.
Defined.

(** ** Profit and loss of a sized position *)

Section ProfitAndLoss.

Variable c : calculator.Calculator.

Lemma CalculatePnLPercent_pos side entryPrice markPrice :
  0 < entryPrice ->
  calculator.CalculatePnLPercent c side entryPrice markPrice
  = Some (gain side entryPrice markPrice / entryPrice * 100).
Proof.
  intros H. unfold calculator.CalculatePnLPercent, gain.
  pose proof (Qpos_nonzero _ H) as H0. apply fle_false in H. rewrite H.
  destruct (String.eqb side calculator.SideLong);
    rewrite (fdiv_Some _ _ H0); reflexivity.
Qed.

Lemma CalculateExpectedPnL_pos side entryPrice exitPrice size :
  0 < entryPrice ->
  calculator.CalculateExpectedPnL c side entryPrice exitPrice size
  = Some (gain side entryPrice exitPrice * size,
          gain side entryPrice exitPrice / entryPrice * 100).
Proof.
  intros H. unfold calculator.CalculateExpectedPnL.
  rewrite (CalculatePnLPercent_pos _ _ _ H). unfold gain.
  destruct (String.eqb side calculator.SideLong); reflexivity.
Qed.

(** On validated input the stop loss is [priceRisk] away on the losing side
    and the take profit [priceRisk * rrRatio] away on the paying side. *)
Lemma gain_at_stop side entryPrice stopLoss :
  gain side entryPrice stopLoss == - priceRisk side entryPrice stopLoss.
Proof.
  unfold gain, priceRisk.
  destruct (String.eqb side calculator.SideLong); ring.
Qed.

Lemma gain_at_take_profit side entryPrice stopLoss riskPercent accountBalance
    rrRatio :
  side = calculator.SideLong \/ side = calculator.SideShort ->
  calculator.ValidateInputs c side entryPrice stopLoss riskPercent
    accountBalance = None ->
  gain side entryPrice
    (calculator.CalculateRRTakeProfit c entryPrice stopLoss rrRatio side)
  == priceRisk side entryPrice stopLoss * rrRatio.
Proof.
  intros Hside H. apply ValidateInputs_None_inv in H.
  destruct H as (_ & _ & _ & _ & _ & HL & HS).
  unfold gain, priceRisk, calculator.CalculateRRTakeProfit.
  destruct Hside as [-> | ->]; simpl.
  - specialize (HL eq_refl).
    rewrite (Qabs_pos (entryPrice - stopLoss)) by lra. ring.
  - specialize (HS eq_refl).
    rewrite (Qabs_neg (entryPrice - stopLoss)) by lra. ring.
Qed.

(** X4. A position sized by [CalculateSize] on validated input is positive
    and loses exactly the risk amount when it is closed at the stop loss:
    [CalculateExpectedPnL] at the stop-loss price gives
    [-(balance*riskPercent/100)] and a negative percentage. *)
Theorem stop_loss_costs_the_risk_amount :
  forall side entryPrice stopLoss riskPercent accountBalance,
    side = calculator.SideLong \/ side = calculator.SideShort ->
    calculator.ValidateInputs c side entryPrice stopLoss riskPercent
      accountBalance = None ->
    exists size nominal percent,
      calculator.CalculateSize c accountBalance riskPercent entryPrice
        stopLoss side = Some size
      /\ 0 < size
      /\ calculator.CalculateExpectedPnL c side entryPrice stopLoss size
         = Some (nominal, percent)
      /\ nominal == - (accountBalance * riskPercent / 100)
      /\ percent < 0.
Proof.
  intros side entryPrice stopLoss riskPercent accountBalance Hside H.
  destruct (CalculateSize_valid c _ _ _ _ _ Hside H) as [Esize Hpos].
  pose proof (priceRisk_pos c _ _ _ _ _ Hside H) as Hrisk.
  pose proof (ValidateInputs_None_inv c _ _ _ _ _ H) as (He & _).
  do 3 eexists. split; [exact Esize|]. split; [exact Hpos|].
  split; [apply CalculateExpectedPnL_pos, He|]. split.
  - rewrite gain_at_stop. field. lra.
  - rewrite gain_at_stop.
    assert (E : - priceRisk side entryPrice stopLoss / entryPrice * 100
                == - (priceRisk side entryPrice stopLoss / entryPrice * 100))
      by (field; lra).
    rewrite E.
    assert (0 < priceRisk side entryPrice stopLoss / entryPrice)
      by (apply Qdiv_pos; assumption).
    lra.
Qed.

(** X5. Closed at the price [CalculateRRTakeProfit] gives, the same position
    earns the risk amount times the ratio:
    [CalculateExpectedPnL] gives [rrRatio * (balance*riskPercent/100)]. *)
Theorem take_profit_pays_ratio_times_risk :
  forall side entryPrice stopLoss riskPercent accountBalance rrRatio,
    side = calculator.SideLong \/ side = calculator.SideShort ->
    calculator.ValidateInputs c side entryPrice stopLoss riskPercent
      accountBalance = None ->
    exists size nominal percent,
      calculator.CalculateSize c accountBalance riskPercent entryPrice
        stopLoss side = Some size
      /\ calculator.CalculateExpectedPnL c side entryPrice
           (calculator.CalculateRRTakeProfit c entryPrice stopLoss rrRatio
              side) size
         = Some (nominal, percent)
      /\ nominal == rrRatio * (accountBalance * riskPercent / 100).
Proof.
  intros side entryPrice stopLoss riskPercent accountBalance rrRatio Hside H.
  destruct (CalculateSize_valid c _ _ _ _ _ Hside H) as [Esize _].
  pose proof (priceRisk_pos c _ _ _ _ _ Hside H) as Hrisk.
  pose proof (ValidateInputs_None_inv c _ _ _ _ _ H) as (He & _).
  do 3 eexists. split; [exact Esize|].
  split; [apply CalculateExpectedPnL_pos, He|].
  rewrite (gain_at_take_profit _ _ _ _ _ rrRatio Hside H). field. lra.
Qed.

End ProfitAndLoss.

(** X4 on the specification's Long example: 0.04 at 45000 with the stop at
    44500 loses 20. *)
Lemma stop_loss_costs_the_risk_amount_witness :
  exists size nominal percent,
    calculator.CalculateSize (calculator.New 125) 1000 2 45000 44500
      calculator.SideLong = Some size
    /\ 0 < size
    /\ calculator.CalculateExpectedPnL (calculator.New 125)
         calculator.SideLong 45000 44500 size = Some (nominal, percent)
    /\ nominal == - (1000 * 2 / 100)
    /\ percent < 0.
Proof.
  apply (stop_loss_costs_the_risk_amount (calculator.New 125)
           calculator.SideLong 45000 44500 2 1000).
  - left. reflexivity.
  - reflexivity.
Defined.

(** X5 on the specification's Short example with ratio 2: the take profit at
    2800 earns 40. *)
Lemma take_profit_pays_ratio_times_risk_witness :
  exists size nominal percent,
    calculator.CalculateSize (calculator.New 125) 1000 2 3000 3100
      calculator.SideShort = Some size
    /\ calculator.CalculateExpectedPnL (calculator.New 125)
         calculator.SideShort 3000
         (calculator.CalculateRRTakeProfit (calculator.New 125) 3000 3100 2
            calculator.SideShort) size
       = Some (nominal, percent)
    /\ nominal == 2 * (1000 * 2 / 100).
Proof.
  apply (take_profit_pays_ratio_times_risk (calculator.New 125)
           calculator.SideShort 3000 3100 2 1000 2).
  - right. reflexivity.
  - reflexivity.
Defined.

(** ** Where the take profit lies and what the leverage covers *)

Section Placement.

Variable c : calculator.Calculator.

Lemma Qmult_pos_iff (d x : Q) : 0 < d -> (0 < d * x <-> 0 < x).
Proof.
  intros Hd. split.
  - intros H. destruct (Qlt_le_dec 0 x) as [Hx|Hx]; [assumption|].
    exfalso. apply (Qlt_not_le _ _ H).
    assert (H' : 0 <= d * (- x))
      by (apply Qmult_le_0_compat; lra).
    assert (E : d * (- x) == - (d * x)) by ring.
    rewrite E in H'. lra.
  - intros Hx. apply Qmult_lt_0_compat; assumption.
Qed.

(** X6. On validated input the take profit lies on the paying side of the
    entry exactly when the ratio is positive: above the entry for LONG, below
    it for SHORT.  Nothing keeps a SHORT take profit above zero: it is
    positive exactly when [(stopLoss - entry) * rrRatio < entry]. *)
Theorem take_profit_side :
  forall side entryPrice stopLoss riskPercent accountBalance rrRatio,
    calculator.ValidateInputs c side entryPrice stopLoss riskPercent
      accountBalance = None ->
    (side = calculator.SideLong ->
     (entryPrice
        < calculator.CalculateRRTakeProfit c entryPrice stopLoss rrRatio side
      <-> 0 < rrRatio))
    /\ (side = calculator.SideShort ->
        (calculator.CalculateRRTakeProfit c entryPrice stopLoss rrRatio side
           < entryPrice
         <-> 0 < rrRatio)
        /\ (0 < calculator.CalculateRRTakeProfit c entryPrice stopLoss
                  rrRatio side
            <-> (stopLoss - entryPrice) * rrRatio < entryPrice)).
Proof.
  intros side entryPrice stopLoss riskPercent accountBalance rrRatio H.
  split; intros Hside.
  - pose proof (gain_at_take_profit c _ _ _ _ _ rrRatio
                  (or_introl Hside) H) as G.
    pose proof (priceRisk_pos c _ _ _ _ _ (or_introl Hside) H) as Hd.
    rewrite <- (Qmult_pos_iff _ rrRatio Hd), <- G.
    subst side. unfold gain. simpl. split; intros; lra.
  - pose proof (gain_at_take_profit c _ _ _ _ _ rrRatio
                  (or_intror Hside) H) as G.
    pose proof (priceRisk_pos c _ _ _ _ _ (or_intror Hside) H) as Hd.
    split.
    + rewrite <- (Qmult_pos_iff _ rrRatio Hd), <- G.
      subst side. unfold gain. simpl. split; intros; lra.
    + subst side. unfold gain, priceRisk in G. simpl in G.
      split; intros; lra.
Qed.

(** X7. When the quotient [q] that [CalculateLeverage] computes in float64
    is finite and its ceiling fits the int type, the leverage returned is at
    least [q] whenever [ceil(q) <= maxLeverage]; when [ceil(q)] is above
    [maxLeverage] the result is [maxLeverage], strictly below [q]. *)
Theorem leverage_covers_notional_unless_capped :
  forall size price balance (maxLeverage : int) q,
    float_quotient size price balance = Some q ->
    (min_int <= Qceiling q <= max_int)%Z ->
    ((Qceiling q <= maxLeverage)%Z ->
     q <= inject_Z
            (calculator.CalculateLeverage c size price balance maxLeverage))
    /\ ((maxLeverage < Qceiling q)%Z ->
        calculator.CalculateLeverage c size price balance maxLeverage
          = maxLeverage
        /\ inject_Z maxLeverage < q).
Proof.
  intros size price balance maxLeverage q Eq Hrange.
  rewrite CalculateLeverage_branches.
  rewrite (required_leverage_in_range _ _ _ _ Eq Hrange).
  split.
  - intros Hle.
    destruct (Z.gtb_spec (Qceiling q) maxLeverage); [lia|].
    eapply Qle_trans; [apply Qle_ceiling|].
    rewrite <- Zle_Qle.
    destruct (Z.ltb_spec (Qceiling q) 1); lia.
  - intros Hlt.
    destruct (Z.gtb_spec (Qceiling q) maxLeverage); [|lia].
    split; [reflexivity|].
    eapply Qle_lt_trans; [|apply Qceiling_lt].
    rewrite <- Zle_Qle. lia.
Qed.

End Placement.

(** X6 on the specification's Short example: ratio 2 puts the take profit at
    2800, below the entry and above zero. *)
Lemma take_profit_side_witness :
  (calculator.CalculateRRTakeProfit (calculator.New 125) 3000 3100 2
     calculator.SideShort < 3000 <-> 0 < 2)
  /\ (0 < calculator.CalculateRRTakeProfit (calculator.New 125) 3000 3100 2
            calculator.SideShort
      <-> (3100 - 3000) * 2 < 3000).
Proof.
  apply (take_profit_side (calculator.New 125) calculator.SideShort
           3000 3100 2 1000 2).
  - reflexivity.
  - reflexivity.
Defined.

(** X7 on a position of 20 at 45000 with balance 1000: the quotient is 900,
    the ceiling 200 cuts it, and 200 is below the quotient. *)
Lemma leverage_covers_notional_unless_capped_witness :
  exists q,
    float_quotient 20 45000 1000 = Some q
    /\ q == 900
    /\ calculator.CalculateLeverage (calculator.New 125) 20 45000 1000 200
       = 200%Z
    /\ inject_Z 200 < q.
Proof.
  eexists. split; [vm_compute; reflexivity|]. split; [reflexivity|].
  refine (proj2 (leverage_covers_notional_unless_capped (calculator.New 125)
                   20 45000 1000 200%Z _ _ _) _).
  - vm_compute. reflexivity.
  - vm_compute. split; discriminate.
  - vm_compute. reflexivity.
Defined.

(** ** The percentages *)

Section Percentages.

Variable c : calculator.Calculator.

Lemma gain_opposite entry price :
  gain calculator.SideShort entry price
  == - gain calculator.SideLong entry price.
Proof. unfold gain. simpl. ring. Qed.

Lemma percent_sign (g entry : Q) :
  0 < entry ->
  (0 < g / entry * 100 <-> 0 < g) /\ (g / entry * 100 == 0 <-> g == 0).
Proof.
  intros He.
  assert (E : g / entry * 100 == (100 / entry) * g) by (field; lra).
  assert (Hk : 0 < 100 / entry) by (apply Qdiv_pos; lra).
  rewrite E. split.
  - apply Qmult_pos_iff, Hk.
  - split.
    + intros H. destruct (Qlt_le_dec 0 g) as [Hg|Hg].
      * apply (Qmult_pos_iff _ g Hk) in Hg. lra.
      * destruct (Qlt_le_dec g 0) as [Hg'|Hg']; [|lra].
        assert (Hn : 0 < 100 / entry * (- g))
          by (apply Qmult_pos_iff; [exact Hk | lra]).
        assert (E' : 100 / entry * (- g) == - (100 / entry * g)) by ring.
        rewrite E' in Hn. lra.
    + intros ->. ring.
Qed.

(** X8. The SHORT percentage of [CalculatePnLPercent] is the LONG one
    negated, on every input.  For a positive entry price the LONG percentage
    is positive exactly when the mark price is above the entry, and zero
    exactly when the two are equal. *)
Theorem CalculatePnLPercent_long_short :
  forall entryPrice markPrice,
    exists long short,
      calculator.CalculatePnLPercent c calculator.SideLong entryPrice
        markPrice = Some long
      /\ calculator.CalculatePnLPercent c calculator.SideShort entryPrice
           markPrice = Some short
      /\ short == - long
      /\ (0 < entryPrice ->
          (0 < long <-> entryPrice < markPrice)
          /\ (long == 0 <-> markPrice == entryPrice)).
Proof.
  intros entryPrice markPrice.
  destruct (Qlt_le_dec 0 entryPrice) as [He|He].
  - rewrite !(CalculatePnLPercent_pos c _ _ _ He).
    do 2 eexists. split; [reflexivity|]. split; [reflexivity|]. split.
    + rewrite gain_opposite. field. lra.
    + intros _.
      destruct (percent_sign (gain calculator.SideLong entryPrice markPrice)
                  entryPrice He) as [Hpos Hzero].
      rewrite Hpos, Hzero. unfold gain. simpl. split; split; intros; lra.
  - unfold calculator.CalculatePnLPercent.
    apply fle_true in He. rewrite He.
    do 2 eexists. split; [reflexivity|]. split; [reflexivity|]. split.
    + reflexivity.
    + intros H. apply fle_true in He. lra.
Qed.

(** X9. For a positive entry price the two results of
    [CalculateExpectedPnL] agree: the nominal value is the percentage of the
    position's cost, [percent/100 * entryPrice * size].  For an entry price
    that is not positive the percentage is 0 whatever the nominal value. *)
Theorem CalculateExpectedPnL_consistent :
  forall side entryPrice exitPrice size,
    exists nominal percent,
      calculator.CalculateExpectedPnL c side entryPrice exitPrice size
        = Some (nominal, percent)
      /\ nominal = gain side entryPrice exitPrice * size
      /\ (0 < entryPrice -> nominal == percent / 100 * entryPrice * size)
      /\ (entryPrice <= 0 -> percent = 0).
Proof.
  intros side entryPrice exitPrice size.
  destruct (Qlt_le_dec 0 entryPrice) as [He|He].
  - rewrite (CalculateExpectedPnL_pos c _ _ _ _ He).
    do 2 eexists. split; [reflexivity|]. split; [reflexivity|]. split.
    + intros _. field. lra.
    + intros H. lra.
  - unfold calculator.CalculateExpectedPnL, calculator.CalculatePnLPercent.
    pose proof He as He'. apply fle_true in He'. rewrite He'. simpl.
    do 2 eexists. split; [reflexivity|]. split.
    + unfold gain. destruct (String.eqb side calculator.SideLong);
        reflexivity.
    + split; [intros H; lra | reflexivity].
Qed.

(** X10. [CalculateDistanceToPrice] computes what [CalculatePnLPercent]
    computes with the current price as entry and the target as mark; so for
    a positive current price the LONG distance is positive exactly when the
    target is above it, and the SHORT distance is its negation. *)
Theorem CalculateDistanceToPrice_is_PnLPercent :
  forall side currentPrice targetPrice,
    calculator.CalculateDistanceToPrice c side currentPrice targetPrice
    = calculator.CalculatePnLPercent c side currentPrice targetPrice
    /\ (0 < currentPrice ->
        exists long short,
          calculator.CalculateDistanceToPrice c calculator.SideLong
            currentPrice targetPrice = Some long
          /\ calculator.CalculateDistanceToPrice c calculator.SideShort
               currentPrice targetPrice = Some short
          /\ short == - long
          /\ (0 < long <-> currentPrice < targetPrice)).
Proof.
  intros side currentPrice targetPrice.
  split; [reflexivity|]. intros Hc.
  change (calculator.CalculateDistanceToPrice c) with
    (calculator.CalculatePnLPercent c).
  rewrite !(CalculatePnLPercent_pos c _ _ _ Hc).
  do 2 eexists. split; [reflexivity|]. split; [reflexivity|]. split.
  - rewrite gain_opposite. field. lra.
  - destruct (percent_sign (gain calculator.SideLong currentPrice targetPrice)
                currentPrice Hc) as [Hpos _].
    rewrite Hpos. unfold gain. simpl. split; intros; lra.
Qed.

End Percentages.

(** ** Further properties of the risk-ratio strategy *)

Section RiskRatioPlans.

Variable s : riskratio.RiskRatioStrategy.
Variable ctx : Context.
Variable now : Time.

(** A returned plan is the one of [valid_plan], on validated parameters. *)
Lemma CalculatePosition_plan_inv params plan :
  riskratio.CalculatePosition s ctx now params = Some (Some plan, None) ->
  validate s params = None /\ plan = valid_plan s now params.
Proof.
  intros H. validate_cases s params err E.
  - rewrite (CalculatePosition_invalid s ctx now params err E) in H.
    discriminate H.
  - rewrite (CalculatePosition_valid s ctx now params E) in H.
    injection H as <-. split; reflexivity.
Qed.

(** The take profit is as far from the entry as the stop loss, times the
    absolute value of the ratio. *)
Lemma take_profit_distance c entry stopLoss rrRatio side :
  Qabs (calculator.CalculateRRTakeProfit c entry stopLoss rrRatio side
        - entry)
  == Qabs (entry - stopLoss) * Qabs rrRatio.
Proof.
  unfold calculator.CalculateRRTakeProfit. cbv zeta.
  set (d := Qabs (entry - stopLoss)).
  assert (Hd : Qabs d == d) by (apply Qabs_pos, Qabs_nonneg).
  destruct (String.eqb side calculator.SideLong).
  - assert (E : entry + d * rrRatio - entry == d * rrRatio) by ring.
    rewrite E, Qabs_Qmult, Hd. reflexivity.
  - assert (E : entry - d * rrRatio - entry == - (d * rrRatio)) by ring.
    rewrite E, Qabs_opp, Qabs_Qmult, Hd. reflexivity.
Qed.

(** X11. The risk-ratio strategy treats every side other than "LONG" as
    SHORT: the request is validated and sized as the same request with side
    SHORT, and the plan differs only in carrying the side that was given. *)
Theorem other_sides_are_short :
  forall params,
    params.(PositionParams.Side) <> SideLong ->
    riskratio.CalculatePosition s ctx now params
    = match riskratio.CalculatePosition s ctx now
              (with_Side SideShort params) with
      | Some (Some plan, err) =>
          Some (Some (plan_with_Side params.(PositionParams.Side) plan), err)
      | other => other
      end.
Proof.
  intros params Hside. apply String.eqb_neq in Hside.
  unfold riskratio.CalculatePosition, riskratio.calculatorSideFromStrategy.
  cbv zeta. simpl. rewrite Hside.
  destruct (calculator.ValidateInputs _ _ _ _ _ _); [reflexivity|].
  destruct (calculator.CalculateSize _ _ _ _ _ _) as [size|];
    reflexivity.
Qed.

(** X12. Every plan the risk-ratio strategy returns is consistent: the size
    is positive, the risk amount is positive and at most the account balance,
    the size times the distance from entry to stop loss is the risk amount,
    and the distance from entry to take profit is the stop distance times
    the absolute value of the ratio. *)
Theorem returned_plan_is_consistent :
  forall params plan,
    riskratio.CalculatePosition s ctx now params = Some (Some plan, None) ->
    exists sl tp,
      plan.(PositionPlan.StopLoss) = Some sl
      /\ plan.(PositionPlan.TakeProfits) = [tp]
      /\ 0 < plan.(PositionPlan.Size)
      /\ 0 < plan.(PositionPlan.RiskAmount)
      /\ plan.(PositionPlan.RiskAmount)
         <= params.(PositionParams.AccountBalance)
      /\ plan.(PositionPlan.Size)
         * Qabs (plan.(PositionPlan.EntryPrice) - sl.(StopLossLevel.Price))
         == plan.(PositionPlan.RiskAmount)
      /\ Qabs (tp.(TakeProfitLevel.Price) - plan.(PositionPlan.EntryPrice))
         == Qabs (plan.(PositionPlan.EntryPrice) - sl.(StopLossLevel.Price))
            * Qabs s.(riskratio.rrRatio).
Proof.
  intros params plan H.
  destruct (CalculatePosition_plan_inv params plan H) as [E ->].
  unfold validate in E.
  pose proof (calculatorSideFromStrategy_cases
                params.(PositionParams.Side)) as Hside.
  destruct (CalculateSize_valid _ _ _ _ _ _ Hside E) as [_ Hsize].
  pose proof (priceRisk_pos _ _ _ _ _ _ Hside E) as Hrisk.
  pose proof (ValidateInputs_None_inv _ _ _ _ _ _ E)
    as (He & Hs & Hr & Hr' & Hb & HL & HS).
  do 2 eexists. split; [reflexivity|]. split; [reflexivity|]. simpl.
  fold (plan_size params) in Hsize.
  assert (Hd : Qabs (params.(PositionParams.EntryPrice)
                     - params.(PositionParams.StopLoss))
               == priceRisk
                    (riskratio.calculatorSideFromStrategy
                       params.(PositionParams.Side))
                    params.(PositionParams.EntryPrice)
                    params.(PositionParams.StopLoss)).
  { unfold priceRisk. destruct Hside as [Hsd | Hsd]; rewrite Hsd.
    - change (String.eqb calculator.SideLong calculator.SideLong) with true.
      specialize (HL Hsd). apply Qabs_pos. lra.
    - change (String.eqb calculator.SideShort calculator.SideLong) with false.
      specialize (HS Hsd). rewrite Qabs_neg by lra. ring. }
  split; [exact Hsize|].
  assert (Hamount : 0 < params.(PositionParams.AccountBalance)
                        * (params.(PositionParams.RiskPercent) / 100)).
  { apply Qmult_lt_0_compat; [assumption|].
    apply Qdiv_pos; [assumption|reflexivity]. }
  split; [|split; [|split]].
  - assert (E' : params.(PositionParams.AccountBalance)
                 * params.(PositionParams.RiskPercent) / 100
                 == params.(PositionParams.AccountBalance)
                    * (params.(PositionParams.RiskPercent) / 100))
      by (field).
    rewrite E'. exact Hamount.
  - assert (E' : params.(PositionParams.AccountBalance)
                 * params.(PositionParams.RiskPercent) / 100
                 == params.(PositionParams.AccountBalance)
                    * (params.(PositionParams.RiskPercent) / 100))
      by (field).
    rewrite E'.
    assert (Hr1 : params.(PositionParams.RiskPercent) / 100 <= 1)
      by (apply Qle_shift_div_r; [reflexivity | lra]).
    rewrite <- (Qmult_1_r params.(PositionParams.AccountBalance)) at 2.
    apply Qmult_le_l; assumption.
  - rewrite Hd. unfold plan_size. field. lra.
  - apply take_profit_distance.
Qed.

End RiskRatioPlans.

(** X11 on a request with no side set. *)
Lemma other_sides_are_short_witness :
  riskratio.CalculatePosition (riskratio.New 2) tt 0%Z no_side
  = match riskratio.CalculatePosition (riskratio.New 2) tt 0%Z
            (with_Side SideShort no_side) with
    | Some (Some plan, err) => Some (Some (plan_with_Side ""%string plan), err)
    | other => other
    end.
Proof.
  apply (other_sides_are_short (riskratio.New 2) tt 0%Z no_side).
  discriminate.
Defined.

(** X12 on the first row of the test table. *)
Lemma returned_plan_is_consistent_witness :
  exists sl tp,
    (valid_plan (riskratio.New 2) 0%Z long_2pct).(PositionPlan.StopLoss)
      = Some sl
    /\ (valid_plan (riskratio.New 2) 0%Z long_2pct).(PositionPlan.TakeProfits)
       = [tp]
    /\ 0 < (valid_plan (riskratio.New 2) 0%Z long_2pct).(PositionPlan.Size)
    /\ 0 < (valid_plan (riskratio.New 2) 0%Z long_2pct)
             .(PositionPlan.RiskAmount)
    /\ (valid_plan (riskratio.New 2) 0%Z long_2pct).(PositionPlan.RiskAmount)
       <= 1000
    /\ (valid_plan (riskratio.New 2) 0%Z long_2pct).(PositionPlan.Size)
       * Qabs ((valid_plan (riskratio.New 2) 0%Z long_2pct)
                 .(PositionPlan.EntryPrice) - sl.(StopLossLevel.Price))
       == (valid_plan (riskratio.New 2) 0%Z long_2pct)
            .(PositionPlan.RiskAmount)
    /\ Qabs (tp.(TakeProfitLevel.Price)
             - (valid_plan (riskratio.New 2) 0%Z long_2pct)
                 .(PositionPlan.EntryPrice))
       == Qabs ((valid_plan (riskratio.New 2) 0%Z long_2pct)
                  .(PositionPlan.EntryPrice) - sl.(StopLossLevel.Price))
          * Qabs 2.
Proof.
  apply (returned_plan_is_consistent (riskratio.New 2) tt 0%Z long_2pct
           (valid_plan (riskratio.New 2) 0%Z long_2pct)).
  reflexivity.
Defined.

(** ** The example strategy with ceilings of its own *)

Section Conservative.

Variable s : conservative.ConservativeStrategy.
Variable ctx : Context.

(** [CalculatePosition] with the lowered risk named: what it prints and
    what it returns. *)
Lemma conservative_CalculatePosition_eq params :
  conservative.CalculatePosition s ctx params
  = (if fgt params.(PositionParams.RiskPercent) s.(conservative.maxRisk)
     then [conservative.RiskCapped s.(conservative.maxRisk)
             params.(PositionParams.RiskPercent)]
     else [],
     match calculator.ValidateInputs s.(conservative.calculator)
             params.(PositionParams.Side)
             params.(PositionParams.EntryPrice)
             params.(PositionParams.StopLoss)
             (capped_risk s params)
             params.(PositionParams.AccountBalance) with
     | Some err => Some (None, Some (ErrValidationFailed err))
     | None =>
       size <- calculator.CalculateSize s.(conservative.calculator)
                 params.(PositionParams.AccountBalance) (capped_risk s params)
                 params.(PositionParams.EntryPrice)
                 params.(PositionParams.StopLoss)
                 params.(PositionParams.Side) ;;
       Some (Some (conservative_plan s params size
                     (calculator.CalculateLeverage
                        s.(conservative.calculator) size
                        params.(PositionParams.EntryPrice)
                        params.(PositionParams.AccountBalance) 10)), None)
     end).
Proof.
  unfold conservative.CalculatePosition, conservative_plan, capped_risk.
  destruct (fgt _ _); reflexivity.
Qed.

Lemma capped_risk_le params :
  capped_risk s params <= s.(conservative.maxRisk)
  /\ capped_risk s params <= params.(PositionParams.RiskPercent)
  /\ (capped_risk s params = params.(PositionParams.RiskPercent)
      \/ capped_risk s params = s.(conservative.maxRisk)).
Proof.
  unfold capped_risk.
  destruct (fgt _ _) eqn:E.
  - apply fgt_true in E. repeat split; [lra | lra | now right].
  - apply fgt_false in E. repeat split; [lra | lra | now left].
Qed.

(** X13. Every plan the example strategy returns carries the requested risk
    percent lowered to the strategy's [maxRisk], a risk amount computed from
    that lowered percent, and a leverage between 1 and 10; it prints the
    lowering exactly when the request was above [maxRisk]. *)
Theorem conservative_plan_is_capped :
  forall params printed plan,
    conservative.CalculatePosition s ctx params
      = (printed, Some (Some plan, None)) ->
    plan.(PositionPlan.RiskPercent) <= s.(conservative.maxRisk)
    /\ plan.(PositionPlan.RiskPercent) <= params.(PositionParams.RiskPercent)
    /\ (plan.(PositionPlan.RiskPercent) = params.(PositionParams.RiskPercent)
        \/ plan.(PositionPlan.RiskPercent) = s.(conservative.maxRisk))
    /\ plan.(PositionPlan.RiskAmount)
       = params.(PositionParams.AccountBalance)
         * plan.(PositionPlan.RiskPercent) / 100
    /\ (1 <= plan.(PositionPlan.Leverage) <= 10)%Z
    /\ (printed = []
        <-> params.(PositionParams.RiskPercent) <= s.(conservative.maxRisk)).
Proof.
  intros params printed plan H.
  rewrite conservative_CalculatePosition_eq in H.
  injection H as Hprinted Hres.
  destruct (calculator.ValidateInputs _ _ _ _ _ _); [discriminate Hres|].
  destruct (calculator.CalculateSize _ _ _ _ _ _) as [size|];
    [simpl in Hres|discriminate Hres].
  injection Hres as <-.
  cbn [conservative_plan PositionPlan.Leverage PositionPlan.RiskPercent
       PositionPlan.RiskAmount].
  destruct (capped_risk_le params) as (H1 & H2 & H3).
  destruct (CalculateLeverage_range s.(conservative.calculator) size
              params.(PositionParams.EntryPrice)
              params.(PositionParams.AccountBalance) 10%Z ltac:(lia))
    as [_ HL].
  repeat split; try assumption; try lia.
  - intros Hp. rewrite Hp in Hprinted.
    destruct (fgt _ _) eqn:E; [discriminate Hprinted|].
    apply fgt_false in E. exact E.
  - intros Hle. apply fgt_false in Hle. rewrite Hle in Hprinted.
    symmetry. exact Hprinted.
Qed.

(** X14. A request above [maxRisk] is answered as the same request at
    [maxRisk], after the lowering is printed: the risk percent is validated
    only once it is lowered, so no request is rejected for asking too much
    risk while [maxRisk] itself is valid. *)
Theorem risk_above_ceiling_is_lowered :
  forall params,
    s.(conservative.maxRisk) < params.(PositionParams.RiskPercent) ->
    conservative.CalculatePosition s ctx params
    = ([conservative.RiskCapped s.(conservative.maxRisk)
          params.(PositionParams.RiskPercent)],
       snd (conservative.CalculatePosition s ctx
              (with_RiskPercent s.(conservative.maxRisk) params))).
Proof.
  intros params H.
  rewrite !conservative_CalculatePosition_eq.
  unfold conservative_plan, capped_risk. simpl.
  assert (E1 : fgt params.(PositionParams.RiskPercent)
                 s.(conservative.maxRisk) = true)
    by (apply fgt_true; exact H).
  assert (E2 : fgt s.(conservative.maxRisk) s.(conservative.maxRisk) = false)
    by (apply fgt_false; lra).
  rewrite E1, E2. reflexivity.
Qed.

(** X15. The example strategy divides by zero exactly on a request that
    passes validation with its stop loss at the entry price, which only a
    side other than LONG and SHORT allows; on every other request it returns
    an error or a plan. *)
Theorem conservative_zero_divisor :
  forall params,
    (snd (conservative.CalculatePosition s ctx params) = None
     <-> calculator.ValidateInputs s.(conservative.calculator)
           params.(PositionParams.Side)
           params.(PositionParams.EntryPrice)
           params.(PositionParams.StopLoss)
           (capped_risk s params)
           params.(PositionParams.AccountBalance) = None
         /\ params.(PositionParams.StopLoss)
            == params.(PositionParams.EntryPrice))
    /\ (snd (conservative.CalculatePosition s ctx params) = None ->
        params.(PositionParams.Side) <> SideLong
        /\ params.(PositionParams.Side) <> SideShort).
Proof.
  intros params.
  rewrite conservative_CalculatePosition_eq. simpl.
  destruct (calculator.ValidateInputs _ _ _ _ _ _) as [err|] eqn:EV.
  { split; [split|]; [discriminate | intros [H _]; discriminate H
                     | discriminate]. }
  pose proof (ValidateInputs_None_inv _ _ _ _ _ _ EV)
    as (He & Hs & Hr & Hr' & Hb & HL & HS).
  unfold calculator.CalculateSize, fdiv.
  destruct (Qeq_bool _ 0) eqn:EZ.
  - apply Qeq_bool_iff in EZ. simpl.
    assert (Heq : params.(PositionParams.StopLoss)
                  == params.(PositionParams.EntryPrice)).
    { destruct (String.eqb _ calculator.SideLong); lra. }
    split; [split; [intros _; split; [reflexivity | exact Heq]
                   | reflexivity]|].
    intros _. split; intros Hside.
    + specialize (HL Hside). lra.
    + specialize (HS Hside). lra.
  - simpl.
    split; [split|]; [discriminate | | discriminate].
    intros [_ Heq]. exfalso.
    apply Qeq_bool_neq in EZ. apply EZ.
    destruct (String.eqb _ calculator.SideLong); lra.
Qed.

(** X16. The example strategy never reads the caller's [MaxLeverage]: the
    leverage of a plan is what [CalculateLeverage] returns for the plan's
    size with the ceiling 10, the same for every [MaxLeverage], and is above
    the caller's ceiling whenever that ceiling is below both 10 and the
    required leverage. *)
Theorem conservative_ignores_MaxLeverage :
  forall params printed plan,
    conservative.CalculatePosition s ctx params
      = (printed, Some (Some plan, None)) ->
    plan.(PositionPlan.Leverage)
      = calculator.CalculateLeverage s.(conservative.calculator)
          plan.(PositionPlan.Size) params.(PositionParams.EntryPrice)
          params.(PositionParams.AccountBalance) 10
    /\ (forall maxLeverage,
          conservative.CalculatePosition s ctx
            (with_MaxLeverage maxLeverage params)
          = (printed, Some (Some plan, None)))
    /\ ((params.(PositionParams.MaxLeverage) < 10)%Z ->
        (params.(PositionParams.MaxLeverage)
         < required_leverage plan.(PositionPlan.Size)
             params.(PositionParams.EntryPrice)
             params.(PositionParams.AccountBalance))%Z ->
        (params.(PositionParams.MaxLeverage)
         < plan.(PositionPlan.Leverage))%Z).
Proof.
  intros params printed plan H.
  assert (Hm : forall maxLeverage,
            conservative.CalculatePosition s ctx
              (with_MaxLeverage maxLeverage params)
            = conservative.CalculatePosition s ctx params)
    by reflexivity.
  split; [|split].
  - rewrite conservative_CalculatePosition_eq in H.
    injection H as _ Hres.
    destruct (calculator.ValidateInputs _ _ _ _ _ _); [discriminate Hres|].
    destruct (calculator.CalculateSize _ _ _ _ _ _) as [size|];
      [|discriminate Hres].
    injection Hres as <-. reflexivity.
  - intros maxLeverage. rewrite Hm. exact H.
  - rewrite conservative_CalculatePosition_eq in H.
    injection H as _ Hres.
    destruct (calculator.ValidateInputs _ _ _ _ _ _); [discriminate Hres|].
    destruct (calculator.CalculateSize _ _ _ _ _ _) as [size|];
      [|discriminate Hres].
    injection Hres as <-.
    cbn [conservative_plan PositionPlan.Leverage PositionPlan.Size].
    intros H10 Hreq.
    destruct (CalculateLeverage_range s.(conservative.calculator) size
                params.(PositionParams.EntryPrice)
                params.(PositionParams.AccountBalance) 10%Z ltac:(lia))
      as [HL _].
    rewrite HL. unfold clamp. lia.
Qed.

(** X17. On a request with side LONG or SHORT and a risk percent of at most
    [maxRisk], the example strategy answers as the risk-ratio strategy with
    the same calculator and ratio answers the request with [MaxLeverage] 10:
    the same error, or the same plan under the name "conservative" and with
    no timestamp. *)
Theorem conservative_agrees_with_risk_ratio :
  forall now params,
    params.(PositionParams.Side) = SideLong
    \/ params.(PositionParams.Side) = SideShort ->
    params.(PositionParams.RiskPercent) <= s.(conservative.maxRisk) ->
    conservative.CalculatePosition s ctx params
    = ([],
       match riskratio.CalculatePosition (as_risk_ratio s) ctx now
               (with_MaxLeverage 10%Z params) with
       | Some (Some plan, err) =>
           Some (Some (plan_signed "conservative" conservative.zeroTime plan),
                 err)
       | other => other
       end).
Proof.
  intros now params Hside Hrisk.
  rewrite conservative_CalculatePosition_eq.
  unfold conservative_plan, capped_risk.
  apply fgt_false in Hrisk. rewrite Hrisk.
  unfold riskratio.CalculatePosition. cbv zeta. simpl.
  assert (Hs : riskratio.calculatorSideFromStrategy
                 params.(PositionParams.Side)
               = params.(PositionParams.Side)).
  { destruct Hside as [-> | ->]; reflexivity. }
  rewrite Hs. f_equal.
  destruct (calculator.ValidateInputs _ _ _ _ _ _); [reflexivity|].
  destruct (calculator.CalculateSize _ _ _ _ _ _) as [size|];
    reflexivity.
Qed.

End Conservative.

(** X13 on the request of the example's own [main]: 3 percent asked, 1
    percent granted. *)
Lemma conservative_plan_is_capped_witness :
  exists printed plan,
    conservative.CalculatePosition conservative.NewConservative tt
      (request "BTC-USDT" SideLong 45000 44500 1000 3 125)
      = (printed, Some (Some plan, None))
    /\ plan.(PositionPlan.RiskPercent) <= 1
    /\ (1 <= plan.(PositionPlan.Leverage) <= 10)%Z.
Proof.
  do 2 eexists. split; [reflexivity|].
  destruct (conservative_plan_is_capped conservative.NewConservative tt
              (request "BTC-USDT" SideLong 45000 44500 1000 3 125)
              _ _ eq_refl) as (H1 & _ & _ & _ & H5 & _).
  split; [exact H1 | exact H5].
Defined.

(** X14 on a request for 150 percent: it is answered as the request for 1
    percent. *)
Lemma risk_above_ceiling_is_lowered_witness :
  conservative.CalculatePosition conservative.NewConservative tt risk_150
  = ([conservative.RiskCapped 1.0 150],
     snd (conservative.CalculatePosition conservative.NewConservative tt
            (with_RiskPercent 1.0 risk_150))).
Proof.
  apply (risk_above_ceiling_is_lowered conservative.NewConservative tt
           risk_150).
  reflexivity.
Defined.

(** X16 on a request that allows a leverage of 3: the plan has 10. *)
Lemma conservative_ignores_MaxLeverage_witness :
  exists printed plan,
    conservative.CalculatePosition conservative.NewConservative tt
      tight_leverage_3 = (printed, Some (Some plan, None))
    /\ (3 < plan.(PositionPlan.Leverage))%Z.
Proof.
  do 2 eexists. split; [reflexivity|].
  destruct (conservative_ignores_MaxLeverage conservative.NewConservative tt
              tight_leverage_3 _ _ eq_refl) as (_ & _ & H).
  apply H.
  - reflexivity.
  - reflexivity.
Defined.

(** X17 on the first row of the test table, with its 2 percent lowered to 1
    beforehand. *)
Lemma conservative_agrees_with_risk_ratio_witness :
  conservative.CalculatePosition conservative.NewConservative tt
    (with_RiskPercent 1 long_2pct)
  = ([],
     match riskratio.CalculatePosition
             (as_risk_ratio conservative.NewConservative) tt 0%Z
             (with_MaxLeverage 10%Z (with_RiskPercent 1 long_2pct)) with
     | Some (Some plan, err) =>
         Some (Some (plan_signed "conservative" conservative.zeroTime plan),
               err)
     | other => other
     end).
Proof.
  apply (conservative_agrees_with_risk_ratio conservative.NewConservative tt
           0%Z (with_RiskPercent 1 long_2pct)).
  - left. reflexivity.
  - discriminate.
Defined.
